(** * Grain: the budget calculator and the chat proxy

    A shallow embedding of the planning arithmetic of [src/app/page.tsx]
    (goal projection, investment mix, cash/invest allocation, insight
    rules, the numeric input field) and of the chat proxy
    ([src/app/api/ask-grain/route.ts] with its memoised client accessor),
    followed by the properties established about them.

    Numbers.  A finite JavaScript [number] is embedded as an exact
    rational ([Q]); [Math.round], [Math.ceil], [Math.max] and [Math.min]
    are the exact functions.  Binary64 rounding error is therefore outside
    the general statements; the module [Binary64] repeats the arithmetic
    on machine numbers, and the last section checks that both agree at the
    concrete inputs that are used.  The non-finite values only matter
    where a text is converted to a number, and are explicit there
    ([JS.num]). *)

From Stdlib Require Import QArith Qround Qminmax Qabs Lqa Lia ZArith.
From Stdlib Require Import String Ascii List Bool.
From Stdlib Require Import PrimFloat SpecFloat FloatOps Uint63.
Import ListNotations.

Set Warnings "-inexact-float,-register-all".

Open Scope Q_scope.

(** ** JavaScript numeric built-ins *)

Module JS.

(** [a > b] and [a >= b] on finite numbers. *)
Definition gt (a b : Q) : bool := negb (Qle_bool a b).
Definition ge (a b : Q) : bool := Qle_bool b a.
Definition lt (a b : Q) : bool := negb (Qle_bool b a).

Definition Math_max (a b : Q) : Q := Qmax a b.
Definition Math_min (a b : Q) : Q := Qmin a b.

(** [Math.round]: nearest integer, a tie going up. *)
Definition Math_round (x : Q) : Q := inject_Z (Qfloor (x + 0.5)).

Definition Math_ceil (x : Q) : Q := inject_Z (Qceiling x).

(** A number is whole when it is the image of an integer. *)
Definition whole (x : Q) : Prop := exists n : Z, x == inject_Z n.

(** *** Text *)

(** The white space and line terminators that can occur in a text of
    ASCII characters: tab, line feed, vertical tab, form feed, carriage
    return and space. *)
Definition isWhiteSpace (c : ascii) : bool :=
  let n := nat_of_ascii c in
  ((9 <=? n) && (n <=? 13) || (n =? 32))%nat.

Fixpoint dropWhiteSpace (s : list ascii) : list ascii :=
  match s with
  | c :: r => if isWhiteSpace c then dropWhiteSpace r else s
  | [] => []
  end.

(** [s.trim()] *)
Definition trim (s : string) : string :=
  string_of_list_ascii
    (rev (dropWhiteSpace (rev (dropWhiteSpace (list_ascii_of_string s))))).

(** *** Numbers as the conversion from text produces them *)

Inductive num :=
| Finite (q : Q)
| NaN
| PosInfinity
| NegInfinity.

Definition Number_isFinite (n : num) : bool :=
  match n with Finite _ => true | _ => false end.

(** The least magnitude that binary64 rounds to an infinity. *)
Definition overflowThreshold : Q := inject_Z (2 ^ 1024 - 2 ^ 970).

Definition ofMathematicalValue (q : Q) : num :=
  if Qle_bool overflowThreshold (Qabs q)
  then if Qle_bool 0 q then PosInfinity else NegInfinity
  else Finite q.

Definition digit (base : Z) (c : ascii) : option Z :=
  let n := Z.of_nat (nat_of_ascii c) in
  let v :=
    if ((48 <=? n) && (n <=? 57))%Z then Some (n - 48)%Z
    else if ((97 <=? n) && (n <=? 102))%Z then Some (n - 87)%Z
    else if ((65 <=? n) && (n <=? 70))%Z then Some (n - 55)%Z
    else None in
  match v with
  | Some d => if (d <? base)%Z then Some d else None
  | None => None
  end.

(** The leading digits of [s]: their value on top of [acc], how many
    they are on top of [count], and the rest of the text. *)
Fixpoint digits (base : Z) (s : list ascii) (acc : Z) (count : nat)
  : Z * nat * list ascii :=
  match s with
  | c :: r =>
      match digit base c with
      | Some d => digits base r (acc * base + d)%Z (S count)
      | None => (acc, count, s)
      end
  | [] => (acc, count, s)
  end.

(** Whether [c] is the one character of the text [a]. *)
Definition isChar (c : ascii) (a : string) : bool :=
  (String c EmptyString =? a)%string.

(** An optional sign in front of [s]. *)
Definition signOf (s : list ascii) : bool * list ascii :=
  match s with
  | c :: r =>
      if isChar c "+" then (false, r)
      else if isChar c "-" then (true, r)
      else (false, s)
  | [] => (false, s)
  end.

(** The exponent that ends a decimal literal; [None] when what is left
    of the text is not an exponent part. *)
Definition exponentPart (s : list ascii) : option Z :=
  match s with
  | [] => Some 0%Z
  | c :: r =>
      if isChar c "e" || isChar c "E" then
        let '(neg, r') := signOf r in
        let '(v, n, rest) := digits 10 r' 0 0 in
        match n, rest with
        | S _, [] => Some (if neg then (- v)%Z else v)
        | _, _ => None
        end
      else None
  end.

(** [digits . digits? exponent?], [. digits exponent?] or
    [digits exponent?]. *)
Definition unsignedDecimal (s : list ascii) : option Q :=
  let '(ip, ni, r1) := digits 10 s 0 0 in
  let '(fp, nf, r2) :=
    match r1 with
    | c :: t => if isChar c "." then digits 10 t 0 0 else (0%Z, O, r1)
    | [] => (0%Z, O, r1)
    end in
  match ni, nf with
  | O, O => None
  | _, _ =>
      match exponentPart r2 with
      | Some e =>
          Some ((inject_Z ip + inject_Z fp / inject_Z (10 ^ Z.of_nat nf))
                * 10 ^ e)
      | None => None
      end
  end.

(** [0x], [0o] and [0b] literals. *)
Definition nonDecimal (s : list ascii) : option Q :=
  match s with
  | z :: p :: r =>
      let base :=
        if negb (isChar z "0") then None
        else if isChar p "x" || isChar p "X" then Some 16%Z
        else if isChar p "o" || isChar p "O" then Some 8%Z
        else if isChar p "b" || isChar p "B" then Some 2%Z
        else None in
      match base with
      | Some b =>
          let '(v, n, rest) := digits b r 0 0 in
          match n, rest with
          | S _, [] => Some (inject_Z v)
          | _, _ => None
          end
      | None => None
      end
  | _ => None
  end.

(** [Number(raw)] for a text. *)
Definition Number (raw : string) : num :=
  let s := list_ascii_of_string (trim raw) in
  match s with
  | [] => Finite 0
  | _ :: _ =>
      match nonDecimal s with
      | Some q => ofMathematicalValue q
      | None =>
          let '(neg, u) := signOf s in
          if (string_of_list_ascii u =? "Infinity")%string
          then if neg then NegInfinity else PosInfinity
          else
            match unsignedDecimal u with
            | Some q => ofMathematicalValue (if neg then - q else q)
            | None => NaN
            end
      end
  end.

End JS.

Import JS.

(** ** page.tsx: constants & utils *)

Record Goal := mkGoal {
  id : Z;
  name : string;
  target : Q;
  saved : Q
}.

Definition DEMO_GOALS : list Goal :=
  [ mkGoal 1 "Condo Down Payment" 25000 8200;
    mkGoal 2 "Travel Fund" 3000 1200 ].

Definition monthsToGoal (target saved monthly : Q) : Q :=
  let remaining := Math_max 0 (target - saved) in
  Math_ceil (remaining / Math_max 1 monthly).

Record Breakdown := mkBreakdown {
  crypto : Q;
  etf : Q;
  bond : Q
}.

Definition investBreakdown (total cryptoPct : Q) : Breakdown :=
  let cap := Math_min 10 (Math_max 0 cryptoPct) / 100 in
  let crypto := Math_round (total * cap) in
  let remaining := Math_max 0 (total - crypto) in
  let etf := Math_round (remaining * 0.8) in
  let bond := Math_max 0 (remaining - etf) in
  mkBreakdown crypto etf bond.

(** The name the text gives to line 51's intermediate value. *)
Definition remainingAfterCrypto (total cryptoPct : Q) : Q :=
  Math_max 0 (total - crypto (investBreakdown total cryptoPct)).

(** [GoalRow]'s two projections (lines 102-103). *)
Definition GoalRow_mBase (target saved monthly monthlyBoost : Q) : Q :=
  monthsToGoal target saved monthly.
Definition GoalRow_mBoost (target saved monthly monthlyBoost : Q) : Q :=
  monthsToGoal target saved (monthly + monthlyBoost).

(** [clampPct] (lines 37-41); [Number(n)] of a number is that number. *)
Definition clampPct (n : num) : Q :=
  let x := n in
  match x with
  | Finite q => Math_max 0 (Math_min 100 q)
  | NaN | PosInfinity | NegInfinity => 0
  end.

(** The rest of [GoalRow] (lines 101-105): the progress in percent, the
    months the boost saves, and the value of the progress bar. *)
Definition GoalRow_pctTrue (target saved : Q) : Q :=
  Math_round (saved / Math_max 1 target * 100).
Definition GoalRow_delta (target saved monthly monthlyBoost : Q) : Q :=
  Math_max 0 (GoalRow_mBase target saved monthly monthlyBoost
              - GoalRow_mBoost target saved monthly monthlyBoost).
Definition GoalRow_clamped (target saved : Q) : Q :=
  clampPct (Finite (GoalRow_pctTrue target saved)).

(** ** page.tsx: the dashboard's state and derived values *)

Module GrainDashboard.

(** The [useState] cells the derived values read. *)
Record Inputs := mkInputs {
  income : Q;
  rent : Q;
  utilities : Q;
  insurance : Q;
  transport : Q;
  groceries : Q;
  dining : Q;
  subscriptions : Q;
  other : Q;
  ccDebt : Q;
  ccApr : Q;
  studentLoan : Q;
  studentApr : Q;
  risk : string;
  cryptoPct : Q;
  whatIf : Q
}.

(** The initial values of the cells. *)
Definition initial : Inputs :=
  mkInputs 4000 2000 180 120 160 420 220 45 120 1200 19.99 8000 5.2
           "balanced" 0 0.

(** The debts the dashboard tracks, as (balance, annual rate) pairs:
    the credit card, then the student loan. *)
Definition debts (s : Inputs) : list (Q * Q) :=
  [ (ccDebt s, ccApr s); (studentLoan s, studentApr s) ].

Definition fixedTotal (s : Inputs) : Q :=
  rent s + utilities s + insurance s + subscriptions s.
Definition variableTotal (s : Inputs) : Q :=
  transport s + groceries s + dining s + other s.
Definition spendTotal (s : Inputs) : Q := fixedTotal s + variableTotal s.
Definition leftover (s : Inputs) : Q := Math_max 0 (income s - spendTotal s).

Definition monthlyCoreSpend (s : Inputs) : Q :=
  rent s + utilities s + groceries s + transport s + insurance s.
Definition emergencyTarget (s : Inputs) : Q :=
  Math_round (monthlyCoreSpend s * 4).

(** *** The allocation memo (lines 922-930) *)

(** Lines 923-924: the share before the debt rule. *)
Definition baseShare (risk : string) : Q :=
  let share :=
    if (risk =? "conservative")%string then 0.3
    else if (risk =? "balanced")%string then 0.55
    else 0.75 in
  if (risk =? "yolo")%string then 0.8 else share.

(** Lines 923-925: the share the amounts are computed from. *)
Definition nominalShare (risk : string) (ccDebt ccApr : Q) : Q :=
  let share := baseShare risk in
  if gt ccDebt 0 && gt ccApr 10 then Math_max 0.15 (share - 0.25)
  else share.

Record Allocation := mkAllocation {
  recSaveCash : Q;
  recInvest : Q;
  investShare : Q
}.

Definition allocationMemo (leftover : Q) (risk : string) (ccDebt ccApr : Q)
  : Allocation :=
  let share := nominalShare risk ccDebt ccApr in
  let invest := Math_round (leftover * share) in
  let save := Math_max 0 (leftover - invest) in
  let effectiveShare :=
    if gt leftover 0 then invest / Math_max 1 leftover else share in
  mkAllocation save invest effectiveShare.

Definition allocation (s : Inputs) : Allocation :=
  allocationMemo (leftover s) (risk s) (ccDebt s) (ccApr s).

Definition monthlyToGoals (s : Inputs) : Q :=
  recSaveCash (allocation s) + recInvest (allocation s).
Definition monthlyToGoalsBoosted (s : Inputs) : Q :=
  monthlyToGoals s + whatIf s.
Definition investSharePct (s : Inputs) : Q :=
  Math_round (Math_min 1 (Math_max 0 (investShare (allocation s))) * 100).
Definition savingsRate (s : Inputs) : Q :=
  Math_round (monthlyToGoals s / Math_max 1 (income s) * 100).
Definition monthlyAfterGoals (s : Inputs) : Q :=
  Math_max 0 (leftover s - monthlyToGoals s).

Definition mix (s : Inputs) : Breakdown :=
  investBreakdown (recInvest (allocation s)) (cryptoPct s).

(** *** Goal projection (lines 975-978) *)

Definition goals : list Goal := DEMO_GOALS.
Definition primaryGoal : Goal := nth 0 goals (mkGoal 0 EmptyString 0 0).
Definition monthsToPrimary (s : Inputs) : Q :=
  monthsToGoal (target primaryGoal) (saved primaryGoal) (monthlyToGoals s).
Definition monthsToPrimaryBoost (s : Inputs) : Q :=
  monthsToGoal (target primaryGoal) (saved primaryGoal)
               (monthlyToGoalsBoosted s).

(** *** The insights memo (lines 980-990) *)

(** A template literal is kept as its pieces: the literal text and the
    interpolated numbers with the conversion each goes through. *)
Inductive piece :=
| Txt (s : string)
| Num (n : Q)        (* the default conversion of a number *)
| Fixed0 (n : Q)     (* [n.toFixed(0)] *)
| Locale (n : Q).    (* [n.toLocaleString()] *)

Record Insight := mkInsight {
  title : string;
  detail : list piece;
  tag : string;
  cta : string
}.

(** [out.push(x)] *)
Definition push (out : list Insight) (x : Insight) : list Insight :=
  out ++ [x].

Section InsightsMemo.

(** The dependency list of the memo. *)
Variables income rent ccDebt ccApr subscriptions dining monthlyToGoals
          monthlyCoreSpend emergencyTarget : Q.

Definition housingPct : Q := rent / Math_max 1 income * 100.

(** The six object literals pushed by lines 983-988. *)
Definition housingInsight : Insight :=
  mkInsight "Housing Is High vs Benchmark"
    [ Txt "Rent is "; Fixed0 housingPct;
      Txt "% of income (benchmark ~30%). Consider trimming ~$";
      Locale (Math_round ((housingPct - 30) / 100 * income)); Txt "." ]
    "benchmark" "What does this mean for me?".

Definition debtInsight : Insight :=
  mkInsight "High-Interest Debt First"
    [ Txt "Credit card APR "; Num ccApr; Txt "% detected. Redirect $";
      Locale (Math_min 300 monthlyToGoals);
      Txt " this month to debt payoff — avoids ~$";
      Locale (Math_round (ccApr / 100 / 12 * ccDebt));
      Txt " interest next month." ]
    "debt" "Help me prioritize payments".

Definition subscriptionsInsight : Insight :=
  mkInsight "Subscriptions Audit"
    [ Txt "Subscriptions total $"; Num subscriptions;
      Txt "/mo. Cancel 1–2 rarely used to save $";
      Locale (subscriptions * 12); Txt "/yr." ]
    "quick win" "Which ones should I cancel?".

Definition diningInsight : Insight :=
  mkInsight "Dining Out Creep"
    [ Txt "Dining is $"; Num dining; Txt "/mo. Trim 20% → +$";
      Locale (Math_round (dining * 0.2)); Txt "/mo ($";
      Locale (Math_round (dining * 0.2 * 12)); Txt "/yr)." ]
    "behavior" "Give me a 3-step plan".

Definition savingsInsight : Insight :=
  mkInsight "Increase Savings Rate"
    [ Txt "Only $"; Locale monthlyToGoals;
      Txt "/mo to goals now. Target ~$";
      Locale (Math_round (income * 0.2)); Txt " (≈20%) if possible." ]
    "coach" "How can I get there?".

Definition emergencyInsight : Insight :=
  mkInsight "Emergency Fund Target"
    [ Txt "Aim for ~$"; Locale emergencyTarget;
      Txt " (≈4 months core). You’re spending ~$";
      Locale monthlyCoreSpend; Txt "/mo on essentials." ]
    "safety" "How did you calculate this?".

(** The body of the memo. *)
Definition insightsMemo : list Insight :=
  let out : list Insight := [] in
  let out := if gt housingPct 35 then push out housingInsight else out in
  let out :=
    if gt ccDebt 0 && ge ccApr 15 then push out debtInsight else out in
  let out :=
    if gt subscriptions 40 then push out subscriptionsInsight else out in
  let out := if gt dining 200 then push out diningInsight else out in
  let out :=
    if lt monthlyToGoals 500 then push out savingsInsight else out in
  let out :=
    if gt monthlyCoreSpend 0 then push out emergencyInsight else out in
  firstn 5 out.

(** The same six rules one by one, each yielding no insight or one, in
    the order in which they are declared. *)
Definition emit (fires : bool) (x : Insight) : option Insight :=
  if fires then Some x else None.

Definition housing_high : option Insight :=
  emit (gt housingPct 35) housingInsight.
Definition high_interest_debt : option Insight :=
  emit (gt ccDebt 0 && ge ccApr 15) debtInsight.
Definition subscriptions_audit : option Insight :=
  emit (gt subscriptions 40) subscriptionsInsight.
Definition dining_creep : option Insight :=
  emit (gt dining 200) diningInsight.
Definition low_savings_rate : option Insight :=
  emit (lt monthlyToGoals 500) savingsInsight.
Definition emergency_fund : option Insight :=
  emit (gt monthlyCoreSpend 0) emergencyInsight.

Definition rules : list (option Insight) :=
  [ housing_high; high_interest_debt; subscriptions_audit; dining_creep;
    low_savings_rate; emergency_fund ].

(** What the rules emit, in declaration order. *)
Definition emitted : list Insight :=
  flat_map (fun r => match r with Some x => [x] | None => [] end) rules.

End InsightsMemo.

Definition insights (s : Inputs) : list Insight :=
  insightsMemo (income s) (rent s) (ccDebt s) (ccApr s) (subscriptions s)
               (dining s) (monthlyToGoals s) (monthlyCoreSpend s)
               (emergencyTarget s).

(** *** The allocation chart (lines 940-953) *)

Record Slice := mkSlice {
  sliceName : string;
  value : Q
}.

(** The ten candidate slices, in the order of the array literal. *)
Definition slices (s : Inputs) : list Slice :=
  [ mkSlice "housing" (rent s);
    mkSlice "utilities" (utilities s);
    mkSlice "insurance" (insurance s);
    mkSlice "transport" (transport s);
    mkSlice "groceries" (groceries s);
    mkSlice "dining" (dining s);
    mkSlice "subscriptions" (subscriptions s);
    mkSlice "other" (other s);
    mkSlice "savings" (recSaveCash (allocation s));
    mkSlice "investments" (recInvest (allocation s)) ].

(** [.filter(d => Number.isFinite(d.value) && d.value > 0)]; every value
    of the model is finite. *)
Definition keepSlice (d : Slice) : bool := true && gt (value d) 0.

Definition allocationData (s : Inputs) : list Slice :=
  filter keepSlice (slices s).

(** [.reduce((a, b) => a + b.value, 0)] *)
Definition totalOf (data : list Slice) : Q :=
  fold_left (fun a b => a + value b) data 0.

(** [.reduce((prev, cur) => (cur.value > prev.value ? cur : prev))] on a
    list that is not empty, [null] on the empty one. *)
Definition largestOf (data : list Slice) : option Slice :=
  match data with
  | [] => None
  | first :: rest =>
      Some (fold_left
              (fun prev cur => if gt (value cur) (value prev) then cur else prev)
              rest first)
  end.

Definition totalWithRec (s : Inputs) : Q := totalOf (allocationData s).
Definition largestAllocation (s : Inputs) : option Slice :=
  largestOf (allocationData s).

(** The share of a slice shown beside it (lines 1307 and 1332). *)
Definition slicePct (s : Inputs) (d : Slice) : Q :=
  Math_round (value d / Math_max 1 (totalWithRec s) * 100).

(** *** Further derived values (lines 992-994 and 1110) *)

Definition focusInsights (s : Inputs) : list Insight := firstn 2 (insights s).

Definition debtInterestEstimate (s : Inputs) : Q :=
  Math_max 0 (Math_round (ccApr s / 100 / 12 * ccDebt s)).

Definition hasDebt (s : Inputs) : bool :=
  gt (ccDebt s) 0 || gt (studentLoan s) 0.

(** How much of the emergency target six months of cash saving build. *)
Definition emergencyBuildPct (s : Inputs) : Q :=
  Math_min 100
    (Math_max 0
       (Math_round (recSaveCash (allocation s) * 6
                    / Math_max 1 (emergencyTarget s) * 100))).

End GrainDashboard.

(** ** The same arithmetic on binary64 numbers

    The functions above once more, over the machine's binary64 numbers
    with their rounded operations, for finite arguments.  They serve to
    check, at the concrete inputs used below, that the exact model and the
    binary64 computation agree. *)

Module Binary64.

(** The exact value of a finite binary64 number, in lowest terms. *)
Definition value (f : float) : Q :=
  match Prim2SF f with
  | S754_finite s m e =>
      Qred (inject_Z (if s then Z.neg m else Z.pos m) * 2 ^ e)
  | _ => 0
  end.

(** The binary64 number of an integer of small magnitude. *)
Definition ofZ (z : Z) : float :=
  if (z <? 0)%Z then (- of_uint63 (Uint63.of_Z (- z)))%float
  else of_uint63 (Uint63.of_Z z).

Definition gt (a b : float) : bool := (b <? a)%float.

Definition Math_max (a b : float) : float := if (a <? b)%float then b else a.
Definition Math_min (a b : float) : float := if (b <? a)%float then b else a.
Definition Math_round (x : float) : float := ofZ (Qfloor (value x + 0.5)).
Definition Math_ceil (x : float) : float := ofZ (Qceiling (value x)).

Definition monthsToGoal (target saved monthly : float) : float :=
  let remaining := Math_max 0 (target - saved) in
  Math_ceil (remaining / Math_max 1 monthly).

Definition investBreakdown (total cryptoPct : float)
  : float * float * float :=
  let cap := (Math_min 10 (Math_max 0 cryptoPct) / 100)%float in
  let crypto := Math_round (total * cap) in
  let remaining := Math_max 0 (total - crypto) in
  let etf := Math_round (remaining * 0.8) in
  let bond := Math_max 0 (remaining - etf) in
  (crypto, etf, bond).

Definition allocationMemo (leftover : float) (risk : string)
    (ccDebt ccApr : float) : float * float * float :=
  let share :=
    if (risk =? "conservative")%string then 0.3%float
    else if (risk =? "balanced")%string then 0.55%float
    else 0.75%float in
  let share := if (risk =? "yolo")%string then 0.8%float else share in
  let share :=
    if gt ccDebt 0 && gt ccApr 10 then Math_max 0.15 (share - 0.25)
    else share in
  let invest := Math_round (leftover * share) in
  let save := Math_max 0 (leftover - invest) in
  let effectiveShare :=
    if gt leftover 0 then (invest / Math_max 1 leftover)%float else share in
  (save, invest, effectiveShare).

(** [investSharePct] of line 934. *)
Definition investSharePct (investShare : float) : float :=
  Math_round (Math_min 1 (Math_max 0 investShare) * 100).

End Binary64.

(** ** page.tsx: the numeric input field *)

Module LabeledNumber.

(** [onChange]: the value handed to [setVal] for the text [raw] of the
    field. *)
Definition onChange (raw : string) : num :=
  let n := if (raw =? EmptyString)%string then Finite 0 else Number raw in
  if Number_isFinite n then n else Finite 0.

(** The two stepper buttons, for the current value and the step. *)
Definition minus (val step : Q) : Q := Math_max 0 (Math_round (val - step)).
Definition plus (val step : Q) : Q := Math_max 0 (Math_round (val + step)).

End LabeledNumber.

(** ** lib/openai: the memoised client accessor *)

Module OpenAIClient.

(** An [OpenAI] object: the key it was built with, and its identity as
    the number of objects built before it. *)
Record OpenAI := mkOpenAI {
  instance : nat;
  apiKey : string
}.

(** [OpenAI | null | undefined] *)
Inductive cached :=
| Undefined
| Null
| Client (c : OpenAI).

(** The module's state: the [cachedClient] cell, and how many [OpenAI]
    objects have been constructed. *)
Record Process := mkProcess {
  cachedClient : cached;
  constructed : nat
}.

Definition start : Process := mkProcess Undefined 0.

(** [!apiKey] for [process.env.OPENAI_API_KEY]: undefined or empty. *)
Definition missing (apiKey : option string) : bool :=
  match apiKey with
  | None => true
  | Some k => (k =? EmptyString)%string
  end.

Definition keyText (apiKey : option string) : string :=
  match apiKey with
  | Some k => k
  | None => EmptyString
  end.

(** [getOpenAIClient()] in an environment whose [OPENAI_API_KEY] is
    [env]: the client or null, and the state left behind. *)
Definition getOpenAIClient (env : option string) (p : Process)
  : option OpenAI * Process :=
  match cachedClient p with
  | Client c => (Some c, p)
  | Null => (None, p)
  | Undefined =>
      let apiKey := env in
      if missing apiKey then (None, mkProcess Null (constructed p))
      else
        let c := mkOpenAI (constructed p) (keyText apiKey) in
        (Some c, mkProcess (Client c) (S (constructed p)))
  end.

(** What a settled cell holds. *)
Definition held (c : cached) : option OpenAI :=
  match c with
  | Client o => Some o
  | Null | Undefined => None
  end.

(** Successive calls, one per environment of the list. *)
Fixpoint calls (envs : list (option string)) (p : Process)
  : list (option OpenAI) * Process :=
  match envs with
  | [] => ([], p)
  | env :: rest =>
      let '(r, p1) := getOpenAIClient env p in
      let '(rs, p2) := calls rest p1 in
      (r :: rs, p2)
  end.

End OpenAIClient.

(** ** api/ask-grain/route.ts: the chat proxy *)

Module AskGrain.

Import OpenAIClient.

(** The role of a message of the client, and of a message sent on. *)
Inductive ClientRole := assistant | user.
Inductive ChatRole := system | ofClient (r : ClientRole).

Record ClientMessage := mkClientMessage {
  role : ClientRole;
  text : string
}.

Record ChatMessage := mkChatMessage {
  chatRole : ChatRole;
  content : string
}.

Definition SYSTEM_PROMPT : string := "
You are Grain, a Canada-first personal finance guide. You know the user's monthly budget, debts, and goals.
Keep replies short (3–6 sentences), actionable, and warm. Prioritise Canadian accounts (FHSA, TFSA, RRSP, RESP).
If the user is dealing with debt, emphasise high-interest payoff before aggressive investing.
Suggest next steps or clarification questions when useful. Format with short paragraphs or bullet lists when it improves clarity.
".

(** A value that a call can throw. *)
Inductive thrown :=
| ErrorObject (message : string)
| StringValue (s : string)
| OtherValue.

Inductive outcome (A : Type) :=
| Returns (a : A)
| Throws (e : thrown).
Arguments Returns {A} a.
Arguments Throws {A} e.

(** The parsed request body; both fields may be absent. *)
Record Body := mkBody {
  messages : option (list ClientMessage);
  context : option string
}.

(** The request: what [req.json()] does. *)
Record Request := mkRequest {
  json : outcome Body
}.

(** The argument of [client.chat.completions.create]. *)
Record CreateParams := mkCreateParams {
  model : string;
  chatMessages : list ChatMessage;
  temperature : Q
}.

(** The part of a completion that is read:
    [choices[0]?.message?.content]. *)
Record Message := mkMessage { messageContent : option string }.
Record Choice := mkChoice { message : option Message }.
Record Completion := mkCompletion { choices : list Choice }.

(** The hosted model, as seen from the proxy. *)
Definition Upstream := OpenAI -> CreateParams -> outcome Completion.

Inductive Payload :=
| reply (r : string)
| error (e : string).

Record Response := mkResponse {
  payload : Payload;
  status : Z
}.

(** [NextResponse.json(body)] and [NextResponse.json(body, { status })]. *)
Definition NextResponse_json (body : Payload) (status : option Z) : Response :=
  mkResponse body (match status with Some c => c | None => 200%Z end).

Definition OFFLINE : string :=
  "The AI coach is currently offline. Add an OPENAI_API_KEY environment variable to re-enable it.".
Definition NO_REPLY : string :=
  "Grain could not craft a reply. Please try again.".
Definition UNEXPECTED : string :=
  "Grain ran into an unexpected issue while talking to OpenAI.".

(** The [catch] block (lines 59-72), the log line left out. *)
Definition messageOf (e : thrown) : string :=
  match e with
  | ErrorObject m => m
  | StringValue s => s
  | OtherValue => UNEXPECTED
  end.

Definition caught (e : thrown) : Response :=
  let message := messageOf e in
  NextResponse_json (error message) (Some 500%Z).

Definition truthy (s : option string) : bool :=
  match s with
  | Some t => negb (t =? EmptyString)%string
  | None => false
  end.

(** Lines 32-41. *)
Definition buildMessages (body : Body) : list ChatMessage :=
  let messages := match messages body with Some l => l | None => [] end in
  let context := context body in
  mkChatMessage system
    (trim SYSTEM_PROMPT ++
     (if truthy context
      then "

Context:
" ++ trim (match context with Some c => c | None => EmptyString end)
      else EmptyString))%string
  :: map (fun message => mkChatMessage (ofClient (role message)) (text message))
         messages.

(** Line 49: [completion.choices[0]?.message?.content?.trim()]. *)
Definition replyOf (completion : Completion) : option string :=
  match choices completion with
  | c :: _ =>
      match message c with
      | Some m =>
          match messageContent m with
          | Some t => Some (trim t)
          | None => None
          end
      | None => None
      end
  | [] => None
  end.

(** [POST(req)] in an environment whose [OPENAI_API_KEY] is [env],
    against the hosted model [upstream]: the response, and the state of
    the client accessor left behind. *)
Definition POST (env : option string) (upstream : Upstream) (req : Request)
    (p : Process) : Response * Process :=
  let '(client, p1) := getOpenAIClient env p in
  match client with
  | None => (NextResponse_json (error OFFLINE) (Some 503%Z), p1)
  | Some client =>
      match json req with
      | Throws e => (caught e, p1)
      | Returns body =>
          let chatMessages := buildMessages body in
          match upstream client
                  (mkCreateParams "gpt-4o-mini" chatMessages 0.7) with
          | Throws e => (caught e, p1)
          | Returns completion =>
              let reply := replyOf completion in
              if truthy reply
              then (NextResponse_json
                      (AskGrain.reply
                         (match reply with Some r => r | None => EmptyString end))
                      None, p1)
              else (NextResponse_json (error NO_REPLY) (Some 500%Z), p1)
          end
      end
  end.

(** Successive requests, each with the environment and the hosted model
    of its moment. *)
Fixpoint serve (reqs : list (option string * Upstream * Request))
    (p : Process) : list Response * Process :=
  match reqs with
  | [] => ([], p)
  | (env, upstream, req) :: rest =>
      let '(r, p1) := POST env upstream req p in
      let '(rs, p2) := serve rest p1 in
      (r :: rs, p2)
  end.

End AskGrain.

(** ** page.tsx: the onboarding wizard *)

Module OnboardingWizard.

(** The [useState] cells of the wizard that are saved (lines 333-352);
    the age is whatever number its field produced, an infinity included. *)
Record Wizard := mkWizard {
  province : string;
  age : num;
  income : Q;
  rent : Q;
  utilities : Q;
  insurance : Q;
  transport : Q;
  groceries : Q;
  dining : Q;
  subscriptions : Q;
  other : Q;
  ccDebt : Q;
  ccApr : Q;
  studentLoan : Q;
  studentApr : Q;
  primaryGoal : string;
  risk : string;
  cryptoPct : Q
}.

Definition fixedTotal (w : Wizard) : Q :=
  rent w + utilities w + insurance w + subscriptions w.
Definition variableTotal (w : Wizard) : Q :=
  transport w + groceries w + dining w + other w.
Definition spendTotal (w : Wizard) : Q := fixedTotal w + variableTotal w.
Definition leftover (w : Wizard) : Q := Math_max 0 (income w - spendTotal w).

(** The figure of the summary step's first card (line 617). *)
Definition summaryToGoals (w : Wizard) : Q :=
  Math_max 0 (income w - spendTotal w).

(** The keys of the steps, in the order of the array (lines 371-659). *)
Definition steps : list string :=
  [ "welcome"; "region"; "income"; "fixed"; "variable"; "debts"; "goals";
    "risk"; "summary"; "finish" ]%string.

Definition steps_length : Z := Z.of_nat (length steps).

(** The three handlers that move the step (lines 411, 791 and 806-812);
    [None] stands for [saveSeed(); onComplete()]. *)
Definition getStarted (s : Z) : Z := (s + 1)%Z.
Definition back (s : Z) : Z := Z.max 0 (s - 1).
Definition continue (step : Z) : option Z :=
  if (steps_length - 1 <=? step)%Z then None
  else Some (Z.min (steps_length - 1) (step + 1)).

(** [l.slice(from, to)] for [0 <= from <= to]. *)
Definition slice {A : Type} (from to : Z) (l : list A) : list A :=
  firstn (Z.to_nat (to - from)) (skipn (Z.to_nat from) l).

Definition progressPct (step : Z) : Q :=
  Math_round (inject_Z (step + 1) / inject_Z steps_length * 100).
Definition upcomingSteps (step : Z) : list string :=
  slice (step + 1) (step + 3) steps.

(** The app shell (lines 316-326) with the wizard's step: which screen is
    shown, and the clicks that change it.  The Get-started button is part
    of the body of step 0 and the Back button is disabled there; the two
    buttons of lines 657-658, which both run [saveSeed(); onComplete()],
    are part of the body of the last step. *)
Inductive screen :=
| Onboarding (step : Z)
| Dashboard.

Inductive click :=
| ClickGetStarted
| ClickBack
| ClickContinue
| ClickGoToDashboard
| ClickRestart.

Definition onClick (sc : screen) (c : click) : screen :=
  match sc, c with
  | Onboarding step, ClickGetStarted =>
      if (step =? 0)%Z then Onboarding (getStarted step) else sc
  | Onboarding step, ClickBack =>
      if (step =? 0)%Z then sc else Onboarding (back step)
  | Onboarding step, ClickContinue =>
      match continue step with
      | Some next => Onboarding next
      | None => Dashboard
      end
  | Onboarding step, ClickGoToDashboard =>
      if (step =? steps_length - 1)%Z then Dashboard else sc
  | Onboarding _, ClickRestart => sc
  | Dashboard, ClickRestart => Onboarding 0
  | Dashboard, _ => sc
  end.

Definition clicks (sc : screen) (cs : list click) : screen :=
  fold_left onClick cs sc.

End OnboardingWizard.

(** ** page.tsx: the saved seed *)

Module Seed.

(** A parsed JSON value; the fields of an object in the order of the
    text. *)
Inductive json :=
| JNull
| JBool (b : bool)
| JNumber (n : Q)
| JString (s : string)
| JArray (items : list json)
| JObject (fields : list (string * json)).

(** What [localStorage.getItem(STORAGE_KEY)] holds: nothing, or a text,
    which is represented by what [JSON.parse] makes of it ([None] when it
    throws). *)
Inductive item :=
| NoItem
| Text (parsed : option json).

Definition ofNum (n : num) : json :=
  match n with
  | Finite q => JNumber q
  | NaN | PosInfinity | NegInfinity => JNull
  end.

(** The object literal of [saveSeed] (lines 359-365). *)
Definition seedOf (w : OnboardingWizard.Wizard) : json :=
  JObject
    [ ("province", JString (OnboardingWizard.province w));
      ("age", ofNum (OnboardingWizard.age w));
      ("income", JNumber (OnboardingWizard.income w));
      ("rent", JNumber (OnboardingWizard.rent w));
      ("utilities", JNumber (OnboardingWizard.utilities w));
      ("insurance", JNumber (OnboardingWizard.insurance w));
      ("transport", JNumber (OnboardingWizard.transport w));
      ("groceries", JNumber (OnboardingWizard.groceries w));
      ("dining", JNumber (OnboardingWizard.dining w));
      ("subscriptions", JNumber (OnboardingWizard.subscriptions w));
      ("other", JNumber (OnboardingWizard.other w));
      ("ccDebt", JNumber (OnboardingWizard.ccDebt w));
      ("ccApr", JNumber (OnboardingWizard.ccApr w));
      ("studentLoan", JNumber (OnboardingWizard.studentLoan w));
      ("studentApr", JNumber (OnboardingWizard.studentApr w));
      ("primaryGoal", JString (OnboardingWizard.primaryGoal w));
      ("risk", JString (OnboardingWizard.risk w));
      ("cryptoPct", JNumber (OnboardingWizard.cryptoPct w)) ]%string.

(** [saveSeed()]: the item afterwards; [stored] tells whether [setItem]
    went through (when it throws the error is swallowed). *)
Definition saveSeed (w : OnboardingWizard.Wizard) (stored : bool) (old : item)
  : item :=
  if stored then Text (Some (seedOf w)) else old.

(** [s.key] on the fields of a parsed object; a later duplicate of a key
    is the one that counts. *)
Fixpoint lookup (key : string) (fields : list (string * json)) : option json :=
  match fields with
  | [] => None
  | (k, v) :: rest =>
      match lookup key rest with
      | Some later => Some later
      | None => if (k =? key)%string then Some v else None
      end
  end.

(** [if (typeof s.key === 'number') setKey(s.key)], on the current value
    of the cell. *)
Definition numberCell (key : string) (fields : list (string * json))
    (current : Q) : Q :=
  match lookup key fields with
  | Some (JNumber n) => n
  | _ => current
  end.

Definition stringCell (key : string) (fields : list (string * json))
    (current : string) : string :=
  match lookup key fields with
  | Some (JString t) => t
  | _ => current
  end.

(** The seed effect of the dashboard (lines 887-911) on its cells. *)
Definition load (it : item) (cells : GrainDashboard.Inputs)
  : GrainDashboard.Inputs :=
  match it with
  | Text (Some (JObject s)) =>
      GrainDashboard.mkInputs
        (numberCell "income" s (GrainDashboard.income cells))
        (numberCell "rent" s (GrainDashboard.rent cells))
        (numberCell "utilities" s (GrainDashboard.utilities cells))
        (numberCell "insurance" s (GrainDashboard.insurance cells))
        (numberCell "transport" s (GrainDashboard.transport cells))
        (numberCell "groceries" s (GrainDashboard.groceries cells))
        (numberCell "dining" s (GrainDashboard.dining cells))
        (numberCell "subscriptions" s (GrainDashboard.subscriptions cells))
        (numberCell "other" s (GrainDashboard.other cells))
        (numberCell "ccDebt" s (GrainDashboard.ccDebt cells))
        (numberCell "ccApr" s (GrainDashboard.ccApr cells))
        (numberCell "studentLoan" s (GrainDashboard.studentLoan cells))
        (numberCell "studentApr" s (GrainDashboard.studentApr cells))
        (stringCell "risk" s (GrainDashboard.risk cells))
        (numberCell "cryptoPct" s (GrainDashboard.cryptoPct cells))
        (GrainDashboard.whatIf cells)
  | Text (Some _) | Text None | NoItem => cells
  end.

(** The cells of a dashboard that has just been mounted. *)
Definition mounted (it : item) : GrainDashboard.Inputs :=
  load it GrainDashboard.initial.

End Seed.

(** ** page.tsx: the chat sheet *)

Module AskGrainSheet.

Import AskGrain.

(** [AskGrainMessage] (line 141) has the shape of the proxy's
    [ClientMessage]. *)
Definition AskGrainMessage : Type := ClientMessage.

Definition defaultGreeting : string :=
  "Hi — I’m your AI coach. Ask me anything and I’ll tailor it to your numbers.".

Definition greeting : AskGrainMessage :=
  mkClientMessage assistant defaultGreeting.

Record Sheet := mkSheet {
  chatInput : string;
  chatHistory : list AskGrainMessage;
  isSending : bool
}.

(** The cells of a sheet that has just been mounted. *)
Definition mounted : Sheet := mkSheet EmptyString [greeting] false.

(** [!s] for a text. *)
Definition blank (s : string) : bool := (s =? EmptyString)%string.

(** [value || fallback] for a text that may be undefined. *)
Definition orElse (value : option string) (fallback : string) : string :=
  match value with
  | Some t => if blank t then fallback else t
  | None => fallback
  end.



Definition applyQuickPrompt (prompt : string) (st : Sheet) : Sheet :=
  if isSending st then st else mkSheet prompt (chatHistory st) (isSending st).


(** What the server's response is to [fetch] and [response.json()]:
    [response.ok] with the parsed body, or a thrown value. *)
Record Data := mkData {
  dataReply : option string;
  dataError : option string
}.

Inductive fetched :=
| Responded (ok : bool) (data : Data)
| Rejected (e : thrown).

Section HandleSend.

(** [String.prototype.toLowerCase], left open. *)
Variable toLowerCase : string -> string.





(** [handleSend] from the response on (lines 198-214). *)
Definition handleSend_settle (result : fetched) (st : Sheet) : Sheet :=
  let outcome : string + thrown :=
    match result with
    | Rejected e => inr e
    | Responded ok data =>
        if negb ok || negb (truthy (dataReply data))
        then inr (ErrorObject
                    (orElse (dataError data) "Unable to reach Grain right now."))
        else inl (orElse (dataReply data) EmptyString)
    end in
  let appended :=
    match outcome with
    | inl replyText => mkClientMessage assistant replyText
    | inr caughtValue =>
        let errorMessage :=
          match caughtValue with
          | ErrorObject m => m
          | StringValue _ | OtherValue =>
              "I hit a snag reaching the AI right now."%string
          end in
        mkClientMessage assistant
          (orElse (Some errorMessage) "Give it a few seconds and try again.")
    end in
  mkSheet (chatInput st) (chatHistory st ++ [appended]) false.

(** What the proxy's response is on the client's side. *)
Definition fetchResult (r : Response) : fetched :=
  Responded ((200 <=? status r) && (status r <=? 299))%Z
    (match payload r with
     | reply t => mkData (Some t) None
     | error e => mkData None (Some e)
     end).



End HandleSend.



End AskGrainSheet.

(** ** The statements under examination, as they are worded

    Each is written over the definitions above; the section on properties
    decides it. *)


(** The base share of each of the four profiles. *)
Definition base_share_statement : Prop :=
  GrainDashboard.baseShare "conservative" == 0.30 /\
  GrainDashboard.baseShare "balanced" == 0.55 /\
  GrainDashboard.baseShare "growth" == 0.55 /\
  GrainDashboard.baseShare "yolo" == 0.80.

(** A debt that triggers the override: a balance above 0 at a rate above
    10. *)
Definition high_interest (d : Q * Q) : Prop := 0 < fst d /\ 10 < snd d.

(** The debt override, for any debt of the list. *)
Definition debt_override_statement (s : GrainDashboard.Inputs) : Prop :=
  let base := GrainDashboard.baseShare (GrainDashboard.risk s) in
  let share :=
    GrainDashboard.nominalShare (GrainDashboard.risk s)
      (GrainDashboard.ccDebt s) (GrainDashboard.ccApr s) in
  Exists high_interest (GrainDashboard.debts s) ->
  share == Math_max 0.15 (base - 0.25) /\ share < base.

(** The bounds on the reported share. *)
Definition invest_share_bounds_statement
    (leftover : Q) (risk : string) (ccDebt ccApr : Q) : Prop :=
  0 <= leftover ->
  let a := GrainDashboard.allocationMemo leftover risk ccDebt ccApr in
  0.15 <= GrainDashboard.investShare a /\ GrainDashboard.investShare a <= 0.80.

(** Scenarios B and C. *)
Definition scenario_B_statement (ccDebt ccApr : Q) : Prop :=
  ccApr <= 10 ->
  let a := GrainDashboard.allocationMemo 735 "balanced" ccDebt ccApr in
  GrainDashboard.investShare a == 0.55 /\
  GrainDashboard.recInvest a == 404 /\
  GrainDashboard.recSaveCash a == 331.

Definition scenario_C_statement : Prop :=
  let a := GrainDashboard.allocationMemo 735 "balanced" 1200 19.99 in
  GrainDashboard.investShare a == 0.30 /\
  GrainDashboard.recInvest a == 221 /\
  GrainDashboard.recSaveCash a == 514.

(** The input field: whatever the text, the value handed to the
    calculator is a finite number that is not negative. *)
Definition input_coercion_statement (raw : string) : Prop :=
  exists q : Q, LabeledNumber.onChange raw = Finite q /\ 0 <= q.

(** The argument the hosted model is called with (lines 43-47), and the
    three failure responses. *)
Definition createParams (body : AskGrain.Body) : AskGrain.CreateParams :=
  AskGrain.mkCreateParams "gpt-4o-mini" (AskGrain.buildMessages body) 0.7.

Definition offlineResponse : AskGrain.Response :=
  AskGrain.mkResponse (AskGrain.error AskGrain.OFFLINE) 503.
Definition genericResponse : AskGrain.Response :=
  AskGrain.mkResponse (AskGrain.error AskGrain.UNEXPECTED) 500.
Definition noReplyResponse : AskGrain.Response :=
  AskGrain.mkResponse (AskGrain.error AskGrain.NO_REPLY) 500.

(** The chat proxy's failures: (a) without a client the 503 with its own
    text; (b) when the hosted model throws, a 500 with the generic text;
    (c) on an empty reply, a 500 with a text of its own, which no thrown
    value produces. *)
Definition chat_failures_statement : Prop :=
  forall (env : option string) (upstream : AskGrain.Upstream)
         (req : AskGrain.Request) (p : OpenAIClient.Process),
    let r := fst (AskGrain.POST env upstream req p) in
    match fst (OpenAIClient.getOpenAIClient env p) with
    | None => r = offlineResponse
    | Some client =>
        forall body : AskGrain.Body,
          AskGrain.json req = AskGrain.Returns body ->
          match upstream client (createParams body) with
          | AskGrain.Throws e => r = genericResponse
          | AskGrain.Returns completion =>
              AskGrain.truthy (AskGrain.replyOf completion) = false ->
              r = noReplyResponse /\
              forall e : AskGrain.thrown, AskGrain.caught e <> r
          end
    end.

(** ** Inputs the statements are tried on *)

(** The initial cells with the card paid off and the student loan at 12%. *)
Definition student_loan_only : GrainDashboard.Inputs :=
  GrainDashboard.mkInputs 4000 2000 180 120 160 420 220 45 120 0 19.99 8000 12
                          "balanced" 0 0.

(** The initial cells with an income of 3700: all six rules fire. *)
Definition tight_budget : GrainDashboard.Inputs :=
  GrainDashboard.mkInputs 3700 2000 180 120 160 420 220 45 120 1200 19.99 8000
                          5.2 "balanced" 0 0.

(** The initial cells with another student loan and what-if boost, neither
    of which the insights memo depends on. *)
Definition other_loan : GrainDashboard.Inputs :=
  GrainDashboard.mkInputs 4000 2000 180 120 160 420 220 45 120 1200 19.99 500
                          7 "balanced" 0 250.

(** A request with an empty body, a hosted model that is rate limited, one
    whose error carries the text of the empty-reply failure, and one that
    answers with no choice at all. *)
Definition emptyRequest : AskGrain.Request :=
  AskGrain.mkRequest (AskGrain.Returns (AskGrain.mkBody None None)).
Definition rateLimited : AskGrain.Upstream :=
  fun _ _ => AskGrain.Throws (AskGrain.ErrorObject "429 Rate limit reached").
Definition echoingNoReply : AskGrain.Upstream :=
  fun _ _ => AskGrain.Throws (AskGrain.ErrorObject AskGrain.NO_REPLY).
Definition silent : AskGrain.Upstream :=
  fun _ _ => AskGrain.Returns (AskGrain.mkCompletion []).
Definition answering : AskGrain.Upstream :=
  fun _ _ =>
    AskGrain.Returns
      (AskGrain.mkCompletion
         [AskGrain.mkChoice
            (Some (AskGrain.mkMessage (Some " Pay the card first. "%string)))]).

(** * Properties *)

(** ** Basic facts about the numeric built-ins *)

Lemma gt_true_iff (a b : Q) : gt a b = true <-> b < a.
Proof.
  unfold gt. rewrite negb_true_iff.
  destruct (Qle_bool a b) eqn:E.
  - apply Qle_bool_iff in E. split; [discriminate | intro H; exfalso; lra].
  - split; [intros _ | reflexivity].
    apply Qnot_le_lt. intro H. apply Qle_bool_iff in H. congruence.
Qed.

Lemma gt_false_iff (a b : Q) : gt a b = false <-> a <= b.
Proof.
  unfold gt. rewrite negb_false_iff. apply Qle_bool_iff.
Qed.

Lemma ge_true_iff (a b : Q) : ge a b = true <-> b <= a.
Proof. unfold ge. apply Qle_bool_iff. Qed.

Lemma lt_true_iff (a b : Q) : lt a b = true <-> a < b.
Proof. unfold lt. apply (gt_true_iff b a). Qed.

Lemma Math_round_lower (x : Q) : x - 0.5 < Math_round x.
Proof.
  unfold Math_round.
  pose proof (Qlt_floor (x + 0.5)) as H.
  rewrite inject_Z_plus in H. change (inject_Z 1) with 1 in H. lra.
Qed.

Lemma Math_round_upper (x : Q) : Math_round x <= x + 0.5.
Proof. unfold Math_round. apply Qfloor_le. Qed.

Lemma Math_round_nonneg (x : Q) : 0 <= x -> 0 <= Math_round x.
Proof.
  intro H. unfold Math_round.
  assert (L : (Qfloor 0 <= Qfloor (x + 0.5))%Z) by (apply Qfloor_resp_le; lra).
  change (Qfloor 0) with 0%Z in L. rewrite Zle_Qle in L. exact L.
Qed.

Lemma Math_round_whole (x : Q) : whole (Math_round x).
Proof. exists (Qfloor (x + 0.5)). reflexivity. Qed.

Lemma Math_round_le_whole (x : Q) (n : Z) :
  x < inject_Z n + 0.5 -> Math_round x <= inject_Z n.
Proof.
  intro H. unfold Math_round. rewrite <- Zle_Qle.
  assert (L : (Qfloor (x + 0.5) < n + 1)%Z).
  { rewrite Zlt_Qlt. rewrite inject_Z_plus. change (inject_Z 1) with 1.
    pose proof (Qfloor_le (x + 0.5)). lra. }
  lia.
Qed.

Lemma Math_max_nonneg_l (a b : Q) : 0 <= a -> 0 <= Math_max a b.
Proof. intro H. unfold Math_max. pose proof (Q.le_max_l a b). lra. Qed.

Lemma Math_max_1_pos (x : Q) : 0 < Math_max 1 x.
Proof. unfold Math_max. pose proof (Q.le_max_l 1 x). lra. Qed.


#[export] Instance Math_ceil_Proper : Proper (Qeq ==> Qeq) Math_ceil.
Proof.
  intros x y E. unfold Math_ceil. rewrite (Qceiling_comp _ _ E). reflexivity.
Qed.

#[export] Instance Math_max_Proper : Proper (Qeq ==> Qeq ==> Qeq) Math_max.
Proof. unfold Math_max. exact Q.max_compat. Qed.

#[export] Instance Math_min_Proper : Proper (Qeq ==> Qeq ==> Qeq) Math_min.
Proof. unfold Math_min. exact Q.min_compat. Qed.

(** ** Goal projection *)

Lemma Qdiv_antitone (a c d : Q) : 0 <= a -> 0 < c -> c <= d -> a / d <= a / c.
Proof.
  intros Ha Hc Hcd.
  assert (Hd : 0 < d) by lra.
  apply Qle_shift_div_l; [exact Hc|].
  assert (E : a / d * c == (a * c) / d) by (field; lra).
  rewrite E.
  apply Qle_shift_div_r; [exact Hd|]. nra.
Qed.

Lemma monthsToGoal_antitone (t s r1 r2 : Q) :
  r1 <= r2 -> monthsToGoal t s r2 <= monthsToGoal t s r1.
Proof.
  intro H. unfold monthsToGoal, Math_ceil.
  rewrite <- Zle_Qle. apply Qceiling_resp_le.
  apply Qdiv_antitone.
  - unfold Math_max. apply Q.le_max_l.
  - apply Math_max_1_pos.
  - unfold Math_max. apply Q.max_le_compat_l. exact H.
Qed.

Lemma monthsToGoal_done (t s r : Q) : t <= s -> monthsToGoal t s r = 0.
Proof.
  intro H. unfold monthsToGoal, Math_ceil.
  assert (E : Math_max 0 (t - s) == 0).
  { unfold Math_max. apply Q.max_l. lra. }
  assert (F : Math_max 0 (t - s) / Math_max 1 r == inject_Z 0).
  { rewrite E. unfold Qdiv. change (inject_Z 0) with 0. ring. }
  rewrite (Qceiling_comp _ _ F), Qceiling_Z. reflexivity.
Qed.

Example scenario_D :
  monthsToGoal 25000 8200 735 = 23 /\ monthsToGoal 25000 8200 1035 = 17.
Proof. split; vm_compute; reflexivity. Qed.

(** Closed comparisons between rationals are settled by evaluation. *)
Ltac qeval :=
  vm_compute;
  first [ reflexivity | discriminate | intro; discriminate
        | let H := fresh in intro H; apply H; reflexivity ].

(** C5.  [monthsToGoal] never grows when the monthly rate grows, it is 0
    once the saved amount has reached the target, and so, for a what-if
    boost that is not negative, the boosted projection is at most the
    projection at the current pace, on the dashboard's primary goal and in
    every goal row. *)
Theorem monthsToGoal_rate_and_boost :
  (forall t sv r1 r2 : Q,
      r1 <= r2 -> monthsToGoal t sv r2 <= monthsToGoal t sv r1) /\
  (forall t sv r : Q, t <= sv -> monthsToGoal t sv r = 0) /\
  (forall s : GrainDashboard.Inputs,
      0 <= GrainDashboard.whatIf s ->
      GrainDashboard.monthsToPrimaryBoost s
        <= GrainDashboard.monthsToPrimary s) /\
  (forall t sv monthly boost : Q,
      0 <= boost ->
      GoalRow_mBoost t sv monthly boost <= GoalRow_mBase t sv monthly boost).
Proof.
  split; [exact monthsToGoal_antitone|].
  split; [exact monthsToGoal_done|].
  split.
  - intros s H.
    unfold GrainDashboard.monthsToPrimaryBoost, GrainDashboard.monthsToPrimary,
      GrainDashboard.monthlyToGoalsBoosted.
    apply monthsToGoal_antitone. lra.
  - intros t sv monthly boost H. unfold GoalRow_mBoost, GoalRow_mBase.
    apply monthsToGoal_antitone. lra.
Qed.

Lemma monthsToGoal_rate_and_boost_witness :
  (735 <= 1035 /\ monthsToGoal 25000 8200 1035 <= monthsToGoal 25000 8200 735) /\
  (3000 <= 3200 /\ monthsToGoal 3000 3200 50 = 0) /\
  (0 <= GrainDashboard.whatIf GrainDashboard.initial /\
   GrainDashboard.monthsToPrimaryBoost GrainDashboard.initial
     <= GrainDashboard.monthsToPrimary GrainDashboard.initial) /\
  (0 <= 300 /\ GoalRow_mBoost 3000 1200 735 300 <= GoalRow_mBase 3000 1200 735 300).
Proof.
  destruct monthsToGoal_rate_and_boost as (Hmono & Hdone & Hprim & Hrow).
  split; [|split; [|split]]; (split; [qeval|]).
  - apply (Hmono 25000 8200 735 1035). qeval.
  - apply (Hdone 3000 3200 50). qeval.
  - apply (Hprim GrainDashboard.initial). qeval.
  - apply (Hrow 3000 1200 735 300). qeval.
Defined.

(** ** Investment mix *)

Lemma cap_range (pct : Q) :
  0 <= Math_min 10 (Math_max 0 pct) /\ Math_min 10 (Math_max 0 pct) <= 10.
Proof.
  unfold Math_min, Math_max. split.
  - apply Q.min_glb; [lra | apply Q.le_max_l].
  - apply Q.le_min_l.
Qed.

(** The crypto bucket never exceeds the amount it is taken from. *)
Lemma crypto_le_total (total pct : Q) :
  0 <= total ->
  0 <= crypto (investBreakdown total pct) <= total.
Proof.
  intro Ht. cbn [investBreakdown crypto].
  destruct (cap_range pct) as [C0 C10].
  set (cap := Math_min 10 (Math_max 0 pct)) in *.
  assert (P0 : 0 <= total * (cap / 100)).
  { apply Qmult_le_0_compat; [exact Ht|]. apply Qle_shift_div_l; lra. }
  assert (P1 : total * (cap / 100) <= total * (1 # 10)).
  { assert (D : cap / 100 <= 1 # 10) by (apply Qle_shift_div_r; lra).
    nra. }
  split; [apply Math_round_nonneg; exact P0|].
  destruct (Qlt_le_dec (total * (cap / 100)) 0.5) as [Small | Big].
  - assert (Z0 : Math_round (total * (cap / 100)) <= inject_Z 0).
    { apply Math_round_le_whole. change (inject_Z 0) with 0. lra. }
    change (inject_Z 0) with 0 in Z0. lra.
  - pose proof (Math_round_upper (total * (cap / 100))). lra.
Qed.

Lemma remaining_eq (total pct : Q) :
  0 <= total ->
  remainingAfterCrypto total pct == total - crypto (investBreakdown total pct).
Proof.
  intro Ht. unfold remainingAfterCrypto, Math_max.
  apply Q.max_r. pose proof (crypto_le_total total pct Ht). lra.
Qed.

Lemma etf_whole_le (r : Q) : 0 <= r -> whole r -> Math_round (r * 0.8) <= r.
Proof.
  intros Hr [n E]. rewrite E at 2.
  apply Math_round_le_whole. lra.
Qed.




(** ** Allocation: the share *)

Import GrainDashboard.

Lemma baseShare_other (r : string) :
  r <> "conservative"%string -> r <> "balanced"%string -> r <> "yolo"%string ->
  baseShare r = 0.75.
Proof.
  intros Hc Hb Hy. unfold baseShare.
  apply String.eqb_neq in Hc, Hb, Hy. rewrite Hc, Hb, Hy. reflexivity.
Qed.

Lemma baseShare_cases (r : string) :
  baseShare r = 0.3 \/ baseShare r = 0.55 \/ baseShare r = 0.75 \/
  baseShare r = 0.8.
Proof.
  unfold baseShare.
  destruct (r =? "yolo")%string; [now right; right; right|].
  destruct (r =? "conservative")%string; [now left|].
  destruct (r =? "balanced")%string; [now right; left | now right; right; left].
Qed.

Lemma nominalShare_no_override (r : string) (d a : Q) :
  gt d 0 && gt a 10 = false -> nominalShare r d a = baseShare r.
Proof. intro H. unfold nominalShare. rewrite H. reflexivity. Qed.

Lemma nominalShare_override (r : string) (d a : Q) :
  0 < d -> 10 < a ->
  nominalShare r d a = Math_max 0.15 (baseShare r - 0.25).
Proof.
  intros Hd Ha. unfold nominalShare.
  apply gt_true_iff in Hd, Ha. rewrite Hd, Ha. reflexivity.
Qed.

Lemma override_below_base (r : string) :
  0.15 <= Math_max 0.15 (baseShare r - 0.25) /\
  Math_max 0.15 (baseShare r - 0.25) < baseShare r.
Proof.
  split; [unfold Math_max; apply Q.le_max_l|].
  destruct (baseShare_cases r) as [E | [E | [E | E]]]; rewrite E; qeval.
Qed.

Lemma nominalShare_range (r : string) (d a : Q) :
  0.15 <= nominalShare r d a /\ nominalShare r d a <= 0.8.
Proof.
  unfold nominalShare.
  destruct (gt d 0 && gt a 10);
    destruct (baseShare_cases r) as [E | [E | [E | E]]]; rewrite E;
    split; qeval.
Qed.

(** C1, as amended.  The base share is a function of the risk profile
    alone: conservative 0.30, balanced 0.55, growth 0.75, yolo 0.80 (0.75
    being the value of every name other than conservative, balanced and
    yolo); and it is the share the amounts are computed from whenever the
    debt rule does not apply. *)
Theorem baseShare_by_profile :
  baseShare "conservative" == 0.30 /\
  baseShare "balanced" == 0.55 /\
  baseShare "growth" == 0.75 /\
  baseShare "yolo" == 0.80 /\
  (forall r : string,
      r <> "conservative"%string -> r <> "balanced"%string ->
      r <> "yolo"%string -> baseShare r = 0.75) /\
  (forall (r : string) (d a : Q),
      gt d 0 && gt a 10 = false -> nominalShare r d a = baseShare r).
Proof.
  do 4 (split; [qeval|]).
  split; [exact baseShare_other | exact nominalShare_no_override].
Qed.

Lemma baseShare_by_profile_witness :
  baseShare "aggressive" = 0.75 /\
  nominalShare "growth" 1200 9.5 = baseShare "growth".
Proof.
  destruct baseShare_by_profile as (_ & _ & _ & _ & Hother & Hno).
  split.
  - apply (Hother "aggressive"%string); discriminate.
  - apply (Hno "growth"%string 1200 9.5). reflexivity.
Defined.

(** C1 as worded fails on the growth profile: its base share is 0.75, not
    the 0.55 of balanced; out of a leftover of 1000 it invests 750. *)
Lemma base_share_statement_fails_on_growth :
  baseShare "growth" == 0.75 /\
  recInvest (allocationMemo 1000 "growth" 0 0) == 750 /\
  recInvest (allocationMemo 1000 "balanced" 0 0) == 550 /\
  ~ base_share_statement.
Proof.
  split; [qeval|]. split; [qeval|]. split; [qeval|].
  intros (_ & _ & H & _). revert H. qeval.
Qed.

(** C2, as amended.  When the credit card has a balance above 0 at a rate
    above 10, the share is the profile's base share less 0.25, floored at
    0.15, and is strictly below the base share; the student loan plays no
    part: wherever the card does not trigger the rule the share is the base
    share, whatever the loan's balance and rate. *)
Theorem debt_override_credit_card (s : Inputs) :
  let base := baseShare (risk s) in
  let share := nominalShare (risk s) (ccDebt s) (ccApr s) in
  (0 < ccDebt s -> 10 < ccApr s ->
   share == Math_max 0.15 (base - 0.25) /\ 0.15 <= share /\ share < base) /\
  (~ (0 < ccDebt s /\ 10 < ccApr s) -> share == base).
Proof.
  cbv zeta. split.
  - intros Hd Ha. rewrite (nominalShare_override _ _ _ Hd Ha).
    split; [reflexivity | apply override_below_base].
  - intro H. rewrite nominalShare_no_override; [reflexivity|].
    apply andb_false_iff.
    destruct (gt (ccDebt s) 0) eqn:Ed; [|now left].
    destruct (gt (ccApr s) 10) eqn:Ea; [|now right].
    exfalso. apply H. split; apply gt_true_iff; assumption.
Qed.

Lemma debt_override_credit_card_witness :
  (0 < ccDebt initial /\ 10 < ccApr initial /\
   nominalShare (risk initial) (ccDebt initial) (ccApr initial) == 0.30) /\
  (~ (0 < ccDebt student_loan_only /\ 10 < ccApr student_loan_only) /\
   nominalShare (risk student_loan_only) (ccDebt student_loan_only)
     (ccApr student_loan_only) == 0.55).
Proof.
  assert (Hd : 0 < ccDebt initial) by qeval.
  assert (Ha : 10 < ccApr initial) by qeval.
  assert (Hn : ~ (0 < ccDebt student_loan_only /\ 10 < ccApr student_loan_only)).
  { intros [H _]. revert H. qeval. }
  split.
  - split; [exact Hd|]. split; [exact Ha|].
    destruct (proj1 (debt_override_credit_card initial) Hd Ha) as [E _].
    rewrite E. qeval.
  - split; [exact Hn|].
    rewrite (proj2 (debt_override_credit_card student_loan_only) Hn). qeval.
Defined.

(** C2 as worded fails on an installment debt: with the card paid off and
    the student loan at 12% the list holds a debt over 10%, and the share
    stays the base share 0.55. *)
Lemma debt_override_statement_fails_on_student_loan :
  Exists high_interest (debts student_loan_only) /\
  nominalShare (risk student_loan_only) (ccDebt student_loan_only)
    (ccApr student_loan_only) == 0.55 /\
  ~ debt_override_statement student_loan_only.
Proof.
  assert (E : Exists high_interest (debts student_loan_only)).
  { apply Exists_cons_tl, Exists_cons_hd. split; qeval. }
  split; [exact E|]. split; [qeval|].
  intro H. destruct (H E) as [_ L]. revert L. qeval.
Qed.

(** ** Allocation: the amounts and the reported share *)

Lemma recInvest_near (l : Q) (r : string) (d a : Q) :
  Qabs (recInvest (allocationMemo l r d a) - l * nominalShare r d a) <= 0.5.
Proof.
  cbn [allocationMemo recInvest]. apply Qabs_Qle_condition.
  pose proof (Math_round_lower (l * nominalShare r d a)).
  pose proof (Math_round_upper (l * nominalShare r d a)).
  split; lra.
Qed.

Lemma investShare_at_zero (l : Q) (r : string) (d a : Q) :
  l <= 0 -> investShare (allocationMemo l r d a) = nominalShare r d a.
Proof.
  intro H. cbn [allocationMemo investShare].
  apply gt_false_iff in H. rewrite H. reflexivity.
Qed.

Lemma investShare_realized (l : Q) (r : string) (d a : Q) :
  0 < l ->
  investShare (allocationMemo l r d a)
  = recInvest (allocationMemo l r d a) / Math_max 1 l.
Proof.
  intro H. cbn [allocationMemo investShare recInvest].
  apply gt_true_iff in H. rewrite H. reflexivity.
Qed.

(** C3, as amended.  For every profile name and every debt the share the
    amounts are computed from lies in [0.15, 0.80].  The reported share is
    that share when the leftover is 0; when the leftover is positive it is
    the realised ratio [invest / max(1, leftover)], which is not negative
    and, from a leftover of 1 on, within [1 / (2 * leftover)] of the
    nominal share. *)
Theorem investShare_reported (l : Q) (r : string) (d a : Q) :
  let alloc := allocationMemo l r d a in
  let share := nominalShare r d a in
  (0.15 <= share /\ share <= 0.80) /\
  (l == 0 -> investShare alloc == share) /\
  (0 < l ->
   investShare alloc == recInvest alloc / Math_max 1 l /\
   0 <= investShare alloc) /\
  (1 <= l -> Qabs (investShare alloc - share) <= 1 / (2 * l)).
Proof.
  cbv zeta.
  pose proof (nominalShare_range r d a) as [Lo Hi].
  split; [split; [exact Lo | lra]|].
  split; [intro H; rewrite investShare_at_zero; [reflexivity | lra]|].
  split.
  - intro H. rewrite (investShare_realized _ _ _ _ H).
    split; [reflexivity|].
    apply Qle_shift_div_l; [apply Math_max_1_pos|].
    cbn [allocationMemo recInvest].
    assert (P : 0 <= l * nominalShare r d a) by nra.
    pose proof (Math_round_nonneg _ P). lra.
  - intro H.
    assert (Pos : 0 < l) by lra.
    rewrite (investShare_realized _ _ _ _ Pos).
    assert (M : Math_max 1 l == l) by (unfold Math_max; apply Q.max_r; exact H).
    rewrite M.
    pose proof (recInvest_near l r d a) as N.
    apply Qabs_Qle_condition in N. destruct N as [N1 N2].
    set (x := recInvest (allocationMemo l r d a)) in *.
    set (sh := nominalShare r d a) in *.
    assert (E : x / l - sh == (x - l * sh) / l) by (field; lra).
    assert (F : 1 / (2 * l) == 0.5 / l) by (field; lra).
    rewrite E, F. apply Qabs_Qle_condition. split.
    + apply Qle_shift_div_l; [exact Pos|].
      assert (G : - (0.5 / l) * l == - 0.5) by (field; lra).
      rewrite G. lra.
    + apply Qle_shift_div_r; [exact Pos|].
      assert (G : 0.5 / l * l == 0.5) by (field; lra).
      rewrite G. lra.
Qed.

Lemma investShare_reported_witness :
  (0 == 0 /\ investShare (allocationMemo 0 "yolo" 0 0) == 0.80) /\
  (0 < 735 /\ 0 <= investShare (allocationMemo 735 "balanced" 1200 19.99)) /\
  (1 <= 735 /\
   Qabs (investShare (allocationMemo 735 "balanced" 1200 19.99)
         - nominalShare "balanced" 1200 19.99) <= 1 / (2 * 735)).
Proof.
  split; [|split].
  - assert (H : 0 == 0) by reflexivity.
    split; [exact H|].
    destruct (investShare_reported 0 "yolo" 0 0) as (_ & Z & _).
    rewrite (Z H). qeval.
  - assert (H : 0 < 735) by qeval.
    split; [exact H|].
    destruct (investShare_reported 735 "balanced" 1200 19.99) as (_ & _ & P & _).
    exact (proj2 (P H)).
  - assert (H : 1 <= 735) by qeval.
    split; [exact H|].
    destruct (investShare_reported 735 "balanced" 1200 19.99) as (_ & _ & _ & P).
    exact (P H).
Defined.

(** C3 as worded fails on a small leftover: out of a leftover of 1 with the
    card's debt in force, the share 0.30 rounds the investment to 0 and the
    reported share is 0, below 0.15. *)
Lemma invest_share_bounds_statement_fails_on_one :
  0 <= 1 /\
  recInvest (allocationMemo 1 "balanced" 1200 19.99) == 0 /\
  investShare (allocationMemo 1 "balanced" 1200 19.99) == 0 /\
  ~ invest_share_bounds_statement 1 "balanced" 1200 19.99.
Proof.
  assert (H : 0 <= 1) by qeval.
  split; [exact H|]. split; [qeval|]. split; [qeval|].
  intro S. destruct (S H) as [L _]. revert L. qeval.
Qed.

(** The upper bound fails too: a yolo leftover of 1 is invested whole. *)
Example investShare_above_bound :
  investShare (allocationMemo 1 "yolo" 0 0) == 1.
Proof. qeval. Qed.

(** Scenario A: the initial cells leave 735. *)
Example scenario_A :
  fixedTotal initial == 2345 /\ variableTotal initial == 920 /\
  spendTotal initial == 3265 /\ leftover initial == 735.
Proof. repeat split; qeval. Qed.

(** C7, as amended.  Out of a leftover of 735 on the balanced profile: with
    no card debt over 10% the nominal share is 0.55, the investment 404 and
    the cash 331; with a card debt of 1200 at 19.99% the nominal share is
    0.30, the investment 221 and the cash 514.  The share reported in each
    case is the realised ratio, 404/735 and 221/735, which the dashboard
    shows as 55% and 30%. *)
Theorem scenarios_B_and_C :
  (forall d a : Q,
      ~ (0 < d /\ 10 < a) ->
      let alloc := allocationMemo 735 "balanced" d a in
      nominalShare "balanced" d a == 0.55 /\
      recInvest alloc == 404 /\
      recSaveCash alloc == 331 /\
      investShare alloc == 404 / 735 /\
      Math_round (Math_min 1 (Math_max 0 (investShare alloc)) * 100) == 55) /\
  (let alloc := allocationMemo 735 "balanced" 1200 19.99 in
   nominalShare "balanced" 1200 19.99 == 0.30 /\
   recInvest alloc == 221 /\
   recSaveCash alloc == 514 /\
   investShare alloc == 221 / 735 /\
   Math_round (Math_min 1 (Math_max 0 (investShare alloc)) * 100) == 30) /\
  (allocation initial = allocationMemo 735 "balanced" 1200 19.99 /\
   investSharePct initial == 30).
Proof.
  split; [|split].
  - intros d a H. cbv zeta.
    assert (E : nominalShare "balanced" d a = 0.55).
    { rewrite nominalShare_no_override; [reflexivity|].
      apply andb_false_iff.
      destruct (gt d 0) eqn:Ed; [|now left].
      destruct (gt a 10) eqn:Ea; [|now right].
      exfalso. apply H. split; apply gt_true_iff; assumption. }
    unfold allocationMemo. rewrite E. cbn [recInvest recSaveCash investShare].
    repeat split; qeval.
  - cbv zeta. repeat split; qeval.
  - split; [vm_compute; reflexivity | qeval].
Qed.

Lemma scenarios_B_and_C_witness :
  ~ (0 < 1200 /\ 10 < 9.5) /\
  recInvest (allocationMemo 735 "balanced" 1200 9.5) == 404 /\
  recSaveCash (allocationMemo 735 "balanced" 1200 9.5) == 331.
Proof.
  assert (H : ~ (0 < 1200 /\ 10 < 9.5)).
  { intros [_ H]. revert H. qeval. }
  split; [exact H|].
  destruct (proj1 scenarios_B_and_C 1200 9.5 H) as (_ & I & C & _).
  split; [exact I | exact C].
Defined.

(** C7 as worded fails on the share: what the allocation reports for
    scenario C is the realised ratio 221/735, not 0.30 (and 404/735, not
    0.55, for scenario B). *)
Lemma scenario_statements_fail_on_share :
  investShare (allocationMemo 735 "balanced" 1200 19.99) == 221 / 735 /\
  ~ scenario_C_statement /\
  ~ scenario_B_statement 0 0.
Proof.
  split; [qeval|]. split.
  - intros (H & _). revert H. qeval.
  - intro S. assert (L : 0 <= 10) by qeval.
    destruct (S L) as (H & _). revert H. qeval.
Qed.

(** ** Insights *)

Lemma emit_fires (b : bool) (x : Insight) : emit b x <> None <-> b = true.
Proof. destruct b; cbn; split; congruence. Qed.

Lemma emit_fires_iff (b : bool) (x : Insight) (P : Prop) :
  (b = true <-> P) -> (emit b x <> None <-> P).
Proof. intro H. rewrite emit_fires. exact H. Qed.

Lemma emit_at_most_one (b : bool) (x : Insight) :
  (length (match emit b x with Some y => [y] | None => [] end) <= 1)%nat.
Proof. destruct b; cbn; lia. Qed.

Lemma insightsMemo_emitted (i r d a sub din m core em : Q) :
  insightsMemo i r d a sub din m core em
  = firstn 5 (emitted i r d a sub din m core em).
Proof.
  unfold insightsMemo, emitted, rules, housing_high, high_interest_debt,
    subscriptions_audit, dining_creep, low_savings_rate, emergency_fund,
    emit, push.
  destruct (gt (housingPct i r) 35), (gt d 0 && ge a 15), (gt sub 40),
    (gt din 200), (lt m 500), (gt core 0); reflexivity.
Qed.

(** C6.  The insights are the first five of what six threshold rules emit,
    taken in the declared order housing-high, high-interest-debt,
    subscriptions-audit, dining-creep, low-savings-rate, emergency-fund;
    each rule emits no insight or one, according to its own threshold
    alone; the list has at most five entries; and it is a function of the
    memo's inputs: two states that agree on them get the same list. *)
Theorem insights_fixed_order_battery :
  (forall i r d a sub din m core em : Q,
      rules i r d a sub din m core em
      = [ housing_high i r; high_interest_debt d a m;
          subscriptions_audit sub; dining_creep din; low_savings_rate i m;
          emergency_fund core em ] /\
      insightsMemo i r d a sub din m core em
      = firstn 5 (emitted i r d a sub din m core em) /\
      Forall (fun rule =>
                (length (match rule with Some x => [x] | None => [] end)
                 <= 1)%nat)
             (rules i r d a sub din m core em) /\
      (length (insightsMemo i r d a sub din m core em) <= 5)%nat /\
      (housing_high i r <> None <-> 35 < r / Math_max 1 i * 100) /\
      (high_interest_debt d a m <> None <-> 0 < d /\ 15 <= a) /\
      (subscriptions_audit sub <> None <-> 40 < sub) /\
      (dining_creep din <> None <-> 200 < din) /\
      (low_savings_rate i m <> None <-> m < 500) /\
      (emergency_fund core em <> None <-> 0 < core)) /\
  (forall s1 s2 : Inputs,
      income s1 = income s2 -> rent s1 = rent s2 ->
      ccDebt s1 = ccDebt s2 -> ccApr s1 = ccApr s2 ->
      subscriptions s1 = subscriptions s2 -> dining s1 = dining s2 ->
      monthlyToGoals s1 = monthlyToGoals s2 ->
      monthlyCoreSpend s1 = monthlyCoreSpend s2 ->
      emergencyTarget s1 = emergencyTarget s2 ->
      insights s1 = insights s2).
Proof.
  split.
  - intros i r d a sub din m core em.
    split; [reflexivity|].
    split; [apply insightsMemo_emitted|].
    split.
    { unfold rules.
      repeat (apply Forall_cons; [apply emit_at_most_one|]).
      apply Forall_nil. }
    split; [rewrite insightsMemo_emitted, length_firstn; lia|].
    unfold housing_high, high_interest_debt, subscriptions_audit,
      dining_creep, low_savings_rate, emergency_fund.
    split; [apply emit_fires_iff, gt_true_iff|].
    split.
    { apply emit_fires_iff.
      rewrite andb_true_iff, gt_true_iff, ge_true_iff. reflexivity. }
    split; [apply emit_fires_iff, gt_true_iff|].
    split; [apply emit_fires_iff, gt_true_iff|].
    split; [apply emit_fires_iff, lt_true_iff|].
    apply emit_fires_iff, gt_true_iff.
  - intros s1 s2 E1 E2 E3 E4 E5 E6 E7 E8 E9. unfold insights.
    rewrite E1, E2, E3, E4, E5, E6, E7, E8, E9. reflexivity.
Qed.

Lemma insights_fixed_order_battery_witness :
  map title (insights initial)
  = [ "Housing Is High vs Benchmark"; "High-Interest Debt First";
      "Subscriptions Audit"; "Dining Out Creep"; "Emergency Fund Target" ]%string
  /\ insights other_loan = insights initial.
Proof.
  split; [vm_compute; reflexivity|].
  apply (proj2 insights_fixed_order_battery other_loan initial);
    vm_compute; reflexivity.
Defined.

(** With all six rules firing the sixth insight is the one left out. *)
Example insights_cap_drops_last :
  map title (emitted (income tight_budget) (rent tight_budget)
               (ccDebt tight_budget) (ccApr tight_budget)
               (subscriptions tight_budget) (dining tight_budget)
               (monthlyToGoals tight_budget) (monthlyCoreSpend tight_budget)
               (emergencyTarget tight_budget))
  = [ "Housing Is High vs Benchmark"; "High-Interest Debt First";
      "Subscriptions Audit"; "Dining Out Creep"; "Increase Savings Rate";
      "Emergency Fund Target" ]%string /\
  map title (insights tight_budget)
  = [ "Housing Is High vs Benchmark"; "High-Interest Debt First";
      "Subscriptions Audit"; "Dining Out Creep"; "Increase Savings Rate" ]%string.
Proof. split; vm_compute; reflexivity. Qed.

(** ** The numeric input field *)

Lemma onChange_finite (raw : string) :
  Number_isFinite (LabeledNumber.onChange raw) = true.
Proof.
  unfold LabeledNumber.onChange.
  destruct (raw =? EmptyString)%string; [reflexivity|].
  destruct (Number raw); reflexivity.
Qed.

Lemma stepper_not_negative (val step : Q) :
  0 <= LabeledNumber.minus val step /\ 0 <= LabeledNumber.plus val step.
Proof.
  unfold LabeledNumber.minus, LabeledNumber.plus, Math_max.
  split; apply Q.le_max_l.
Qed.

(** C9.  The typed path of the input field hands a negative entry on
    unchanged: for the text -5 the value set is -5, so the statement that
    every entry arrives finite and not negative fails there.  What is not
    finite is replaced by 0 for every text, and the two stepper buttons of
    the same field never set a negative value. *)
Theorem onChange_passes_negative :
  LabeledNumber.onChange "-5" = Finite (-5) /\
  ~ input_coercion_statement "-5" /\
  LabeledNumber.onChange "-1e400" = Finite 0 /\
  LabeledNumber.onChange "abc" = Finite 0 /\
  (forall raw : string, Number_isFinite (LabeledNumber.onChange raw) = true) /\
  (forall val step : Q,
      0 <= LabeledNumber.minus val step /\ 0 <= LabeledNumber.plus val step).
Proof.
  split; [vm_compute; reflexivity|].
  split.
  { intros [q [E L]]. vm_compute in E. injection E as <-. revert L. qeval. }
  split; [vm_compute; reflexivity|].
  split; [vm_compute; reflexivity|].
  split; [exact onChange_finite | exact stepper_not_negative].
Qed.

(** A negative rent typed into the field raises the leftover. *)
Example negative_rent_reaches_calculator :
  LabeledNumber.onChange "-2000" = Finite (-2000) /\
  leftover (mkInputs 4000 (-2000) 180 120 160 420 220 45 120 1200 19.99 8000
                     5.2 "balanced" 0 0) == 4735.
Proof. split; [vm_compute; reflexivity | qeval]. Qed.

(** ** The client accessor *)

Import OpenAIClient.

Lemma getOpenAIClient_settles (env : option string) (p : Process) :
  cachedClient (snd (getOpenAIClient env p)) <> Undefined.
Proof.
  unfold getOpenAIClient.
  destruct (cachedClient p) eqn:E; cbn; try (rewrite E; discriminate).
  destruct (missing env); cbn; discriminate.
Qed.

Lemma getOpenAIClient_result (env : option string) (p : Process) :
  fst (getOpenAIClient env p) = held (cachedClient (snd (getOpenAIClient env p))).
Proof.
  unfold getOpenAIClient.
  destruct (cachedClient p) eqn:E; cbn; try (rewrite E; reflexivity).
  destruct (missing env); reflexivity.
Qed.

Lemma getOpenAIClient_stable (env : option string) (p : Process) :
  cachedClient p <> Undefined ->
  getOpenAIClient env p = (held (cachedClient p), p).
Proof.
  intro H. unfold getOpenAIClient.
  destruct (cachedClient p); [contradiction | reflexivity | reflexivity].
Qed.

Lemma calls_stable (envs : list (option string)) (p : Process) :
  cachedClient p <> Undefined ->
  calls envs p = (map (fun _ => held (cachedClient p)) envs, p).
Proof.
  intro H. induction envs as [|env rest IH]; [reflexivity|].
  cbn [calls map]. rewrite (getOpenAIClient_stable env p H), IH. reflexivity.
Qed.

Lemma first_call (env : option string) (p : Process) :
  cachedClient p = Undefined ->
  (missing env = true -> fst (getOpenAIClient env p) = None) /\
  (missing env = false ->
   fst (getOpenAIClient env p) = Some (mkOpenAI (constructed p) (keyText env))).
Proof.
  intro H. unfold getOpenAIClient. rewrite H.
  split; intro M; rewrite M; reflexivity.
Qed.

(** ** The chat proxy *)

Import AskGrain.

Lemma POST_without_client (env : option string) (upstream : Upstream)
    (req : Request) (p : Process) :
  fst (getOpenAIClient env p) = None ->
  POST env upstream req p = (offlineResponse, snd (getOpenAIClient env p)).
Proof.
  intro H. unfold POST.
  destruct (getOpenAIClient env p) as [client p1]. cbn in H. subst client.
  reflexivity.
Qed.

Lemma serve_offline (reqs : list (option string * Upstream * Request))
    (p : Process) :
  cachedClient p = Null ->
  serve reqs p = (map (fun _ => offlineResponse) reqs, p).
Proof.
  intro H. induction reqs as [|[[env up] req] rest IH]; [reflexivity|].
  cbn [serve map].
  assert (S : getOpenAIClient env p = (None, p)).
  { rewrite getOpenAIClient_stable by (rewrite H; discriminate).
    rewrite H. reflexivity. }
  rewrite POST_without_client by (rewrite S; reflexivity).
  rewrite S. cbn [snd]. rewrite IH. reflexivity.
Qed.

(** C10.  The first call of the accessor fixes its result: null exactly
    when the key is absent (undefined or empty) at that moment, otherwise a
    client built with the key of that moment.  Every later call returns
    that same value and leaves the state as it is, whatever the
    environment has become.  In particular, when the key is absent at the
    first chat request, that request and every request after it gets the
    503 response, whatever key is configured later. *)
Theorem getOpenAIClient_memoised (env0 : option string) (p : Process) :
  cachedClient p = Undefined ->
  let r0 := fst (getOpenAIClient env0 p) in
  let p1 := snd (getOpenAIClient env0 p) in
  (r0 = None <-> missing env0 = true) /\
  (missing env0 = false ->
   r0 = Some (mkOpenAI (constructed p) (keyText env0))) /\
  (forall env : option string, getOpenAIClient env p1 = (r0, p1)) /\
  (forall envs : list (option string),
      calls envs p1 = (map (fun _ => r0) envs, p1)) /\
  (missing env0 = true ->
   forall (up0 : Upstream) (req0 : Request)
          (later : list (option string * Upstream * Request)),
     fst (serve ((env0, up0, req0) :: later) p)
     = map (fun _ => offlineResponse) ((env0, up0, req0) :: later)).
Proof.
  intros H r0 p1.
  destruct (first_call env0 p H) as [Habsent Hpresent].
  pose proof (getOpenAIClient_settles env0 p) as Hset. fold p1 in Hset.
  pose proof (getOpenAIClient_result env0 p) as Hres. fold r0 p1 in Hres.
  split.
  { split; [|exact Habsent].
    intro E. destruct (missing env0) eqn:M; [reflexivity|].
    fold r0 in Hpresent. rewrite (Hpresent eq_refl) in E. discriminate. }
  split; [exact Hpresent|].
  split; [intro env; rewrite Hres; apply getOpenAIClient_stable, Hset|].
  split; [intro envs; rewrite Hres; apply calls_stable, Hset|].
  intros M up0 req0 later.
  assert (N : r0 = None) by (apply Habsent, M).
  assert (C : cachedClient p1 = Null).
  { subst p1. unfold getOpenAIClient. rewrite H, M. reflexivity. }
  cbn [serve map].
  rewrite (POST_without_client env0 up0 req0 p N). fold p1.
  rewrite (serve_offline later p1 C). reflexivity.
Qed.

Lemma getOpenAIClient_memoised_witness :
  cachedClient start = Undefined /\
  fst (getOpenAIClient (Some "sk-live"%string) (snd (getOpenAIClient None start)))
  = None /\
  map status
    (fst (serve [ (None, answering, emptyRequest);
                  (Some "sk-live"%string, answering, emptyRequest);
                  (Some "sk-live"%string, answering, emptyRequest) ] start))
  = [503; 503; 503]%Z.
Proof.
  assert (H : cachedClient start = Undefined) by reflexivity.
  destruct (getOpenAIClient_memoised None start H) as (_ & _ & Same & _ & Off).
  split; [exact H|]. split.
  - rewrite Same. reflexivity.
  - rewrite Off; reflexivity.
Defined.

(** With the key present from the start the same requests are answered. *)
Example served_when_configured :
  map status
    (fst (serve [ (Some "sk-live"%string, answering, emptyRequest);
                  (None, answering, emptyRequest) ] start))
  = [200; 200]%Z /\
  payload (fst (POST (Some "sk-live"%string) answering emptyRequest start))
  = reply "Pay the card first.".
Proof. split; vm_compute; reflexivity. Qed.

Lemma POST_cases (env : option string) (upstream : Upstream) (req : Request)
    (p : Process) :
  fst (POST env upstream req p)
  = match fst (getOpenAIClient env p) with
    | None => offlineResponse
    | Some client =>
        match json req with
        | Throws e => caught e
        | Returns body =>
            match upstream client (createParams body) with
            | Throws e => caught e
            | Returns completion =>
                if truthy (replyOf completion)
                then mkResponse (reply (keyText (replyOf completion))) 200
                else noReplyResponse
            end
        end
    end.
Proof.
  unfold POST, createParams.
  destruct (getOpenAIClient env p) as [[client|] p1]; cbn [fst]; [|reflexivity].
  destruct (json req) as [body|e]; [|reflexivity].
  destruct (upstream client _) as [completion|e]; [|reflexivity].
  destruct (truthy (replyOf completion)); reflexivity.
Qed.

Lemma caught_is_no_reply (e : thrown) :
  caught e = noReplyResponse <-> messageOf e = NO_REPLY.
Proof.
  unfold caught, noReplyResponse, NextResponse_json. split.
  - intro H. injection H as H. exact H.
  - intro H. rewrite H. reflexivity.
Qed.

(** C8, as amended.  The failures of the proxy are of three kinds, and
    every response is a success or one of them: (a) without a client (as
    when the key is absent and the accessor has not been called before),
    the 503 with its own text; (b) when reading the body or the hosted model
    throws, a 500 that carries the thrown value's own message, the generic
    text standing in only for a value that is neither an error object nor a
    text; (c) on an empty or missing reply, a 500 with a fixed text that
    differs from the 503's and from the generic one.  A caller tells (a)
    from the others by the status, and (b) from (c) by the message unless
    the thrown value carries the very text of (c). *)
Theorem POST_failure_outcomes
    (env : option string) (upstream : Upstream) (req : Request) (p : Process) :
  let r := fst (POST env upstream req p) in
  (fst (getOpenAIClient env p) = None -> r = offlineResponse) /\
  (cachedClient p = Undefined -> missing env = true -> r = offlineResponse) /\
  (forall (client : OpenAI) (body : Body) (e : thrown),
      fst (getOpenAIClient env p) = Some client ->
      json req = Returns body ->
      upstream client (createParams body) = Throws e ->
      r = mkResponse (error (messageOf e)) 500) /\
  (forall (client : OpenAI) (e : thrown),
      fst (getOpenAIClient env p) = Some client ->
      json req = Throws e ->
      r = mkResponse (error (messageOf e)) 500) /\
  (forall (client : OpenAI) (body : Body) (completion : Completion),
      fst (getOpenAIClient env p) = Some client ->
      json req = Returns body ->
      upstream client (createParams body) = Returns completion ->
      truthy (replyOf completion) = false ->
      r = noReplyResponse) /\
  (r = offlineResponse \/ r = noReplyResponse \/
   (exists e : thrown, r = mkResponse (error (messageOf e)) 500) \/
   (exists t : string, t <> EmptyString /\ r = mkResponse (reply t) 200)) /\
  (messageOf OtherValue = UNEXPECTED /\
   (forall m : string, messageOf (ErrorObject m) = m) /\
   (forall m : string, messageOf (StringValue m) = m)) /\
  (status offlineResponse = 503%Z /\
   status noReplyResponse = 500%Z /\
   NO_REPLY <> OFFLINE /\ NO_REPLY <> UNEXPECTED /\
   (forall e : thrown,
       mkResponse (error (messageOf e)) 500 = noReplyResponse
       <-> messageOf e = NO_REPLY)).
Proof.
  cbv zeta. rewrite POST_cases.
  split; [intro H; rewrite H; reflexivity|].
  split.
  { intros U M. rewrite (proj1 (first_call env p U) M). reflexivity. }
  split; [intros client body e H J U; rewrite H, J, U; reflexivity|].
  split; [intros client e H J; rewrite H, J; reflexivity|].
  split; [intros client body k H J U T; rewrite H, J, U, T; reflexivity|].
  split.
  { destruct (fst (getOpenAIClient env p)) as [client|]; [|now left].
    destruct (json req) as [body|e];
      [|right; right; left; exists e; reflexivity].
    destruct (upstream client (createParams body)) as [k|e];
      [|right; right; left; exists e; reflexivity].
    destruct (truthy (replyOf k)) eqn:T; [|now right; left].
    right; right; right. exists (keyText (replyOf k)).
    split; [|reflexivity].
    unfold truthy in T. destruct (replyOf k) as [t|]; [|discriminate].
    cbn. intro E. rewrite E in T. discriminate. }
  split; [repeat split|].
  split; [reflexivity|]. split; [reflexivity|].
  split; [discriminate|]. split; [discriminate|].
  exact caught_is_no_reply.
Qed.

Lemma POST_failure_outcomes_witness :
  fst (POST None rateLimited emptyRequest start) = offlineResponse /\
  fst (POST (Some "sk-live"%string) rateLimited emptyRequest start)
  = mkResponse (error "429 Rate limit reached") 500 /\
  fst (POST (Some "sk-live"%string) silent emptyRequest start)
  = noReplyResponse.
Proof.
  split; [|split].
  - destruct (POST_failure_outcomes None rateLimited emptyRequest start)
      as (_ & A & _).
    apply A; reflexivity.
  - destruct (POST_failure_outcomes (Some "sk-live"%string) rateLimited
                emptyRequest start) as (_ & _ & B & _).
    apply (B (mkOpenAI 0 "sk-live") (mkBody None None)
             (ErrorObject "429 Rate limit reached")); reflexivity.
  - destruct (POST_failure_outcomes (Some "sk-live"%string) silent
                emptyRequest start) as (_ & _ & _ & _ & C & _).
    apply (C (mkOpenAI 0 "sk-live") (mkBody None None) (mkCompletion []));
      reflexivity.
Defined.

(** C8 as worded fails on what the hosted model throws: a rate-limit error
    is answered with the error's own message, not with the generic text;
    and an error that carries the text of the empty-reply failure is
    answered exactly as an empty reply is. *)
Lemma chat_failures_statement_fails_on_thrown_message :
  fst (POST (Some "sk-live"%string) rateLimited emptyRequest start)
  = mkResponse (error "429 Rate limit reached") 500 /\
  fst (POST (Some "sk-live"%string) echoingNoReply emptyRequest start)
  = fst (POST (Some "sk-live"%string) silent emptyRequest start) /\
  ~ chat_failures_statement.
Proof.
  split; [reflexivity|]. split; [reflexivity|].
  intro S.
  specialize (S (Some "sk-live"%string) rateLimited emptyRequest start).
  cbn in S. specialize (S (mkBody None None) eq_refl).
  discriminate S.
Qed.

(** ** Agreement with binary64 at the inputs used above *)

(** At the scenarios and at the inputs on which statements were refuted,
    the amounts computed in binary64 are those of the exact model; the
    reported share of scenario C is the binary64 number nearest to
    221/735. *)
Example binary64_agrees :
  let v3 (t : float * float * float) :=
    (Binary64.value (fst (fst t)), Binary64.value (snd (fst t))) in
  v3 (Binary64.allocationMemo 735 "balanced" 1200 19.99) = (514, 221) /\
  v3 (Binary64.allocationMemo 735 "balanced" 0 0) = (331, 404) /\
  v3 (Binary64.allocationMemo 1 "balanced" 1200 19.99) = (1, 0) /\
  Binary64.allocationMemo 1 "balanced" 1200 19.99
  = (1%float, 0%float, 0%float) /\
  Binary64.allocationMemo 1 "yolo" 0 0 = (0%float, 1%float, 1%float) /\
  v3 (Binary64.allocationMemo 1000 "growth" 0 0) = (250, 750) /\
  v3 (Binary64.allocationMemo 1000 "balanced" 0 0) = (450, 550) /\
  Binary64.investBreakdown 0.7 0 = (0%float, 1%float, 0%float) /\
  Binary64.investBreakdown 404 10 = (40%float, 291%float, 73%float) /\
  Binary64.monthsToGoal 25000 8200 735 = 23%float /\
  Binary64.monthsToGoal 25000 8200 1035 = 17%float /\
  Binary64.investSharePct
    (snd (Binary64.allocationMemo 735 "balanced" 1200 19.99)) = 30%float /\
  Binary64.investSharePct
    (snd (Binary64.allocationMemo 735 "balanced" 0 0)) = 55%float.
Proof. cbv zeta. repeat split; vm_compute; reflexivity. Qed.

(** * Further properties of the code *)

(** ** Goal projection *)





(** ** Allocation: what becomes of the leftover *)

Lemma Math_round_mono (x y : Q) : x <= y -> Math_round x <= Math_round y.
Proof.
  intro H. unfold Math_round. rewrite <- Zle_Qle.
  apply Qfloor_resp_le. lra.
Qed.

Lemma leftover_nonneg (s : Inputs) : 0 <= leftover s.
Proof. unfold leftover, Math_max. apply Q.le_max_l. Qed.

Lemma recInvest_eq (l : Q) (r : string) (d a : Q) :
  recInvest (allocationMemo l r d a) = Math_round (l * nominalShare r d a).
Proof. reflexivity. Qed.

Lemma recSaveCash_eq (l : Q) (r : string) (d a : Q) :
  recSaveCash (allocationMemo l r d a)
  = Math_max 0 (l - recInvest (allocationMemo l r d a)).
Proof. reflexivity. Qed.

Lemma save_plus_invest (l i : Q) : Math_max 0 (l - i) + i == Math_max l i.
Proof.
  unfold Math_max.
  destruct (Q.max_spec 0 (l - i)) as [[L E] | [L E]]; rewrite E.
  - rewrite Q.max_l by lra. ring.
  - rewrite Q.max_r by lra. ring.
Qed.

Lemma recInvest_le_leftover (l : Q) (r : string) (d a : Q) :
  0 <= l -> whole l \/ 2.5 <= l -> recInvest (allocationMemo l r d a) <= l.
Proof.
  intros Hl H. rewrite recInvest_eq.
  pose proof (nominalShare_range r d a) as [Lo Hi].
  set (sh := nominalShare r d a) in *.
  assert (P : l * sh <= l * 0.8) by nra.
  destruct H as [[n En] | Big].
  - rewrite En at 2. apply Math_round_le_whole. lra.
  - pose proof (Math_round_upper (l * sh)). lra.
Qed.

(** X2.  For a leftover that is not negative the invested amount is a
    whole number that is not negative, the cash amount is not negative, and
    cash plus investment is the larger of the leftover and the investment.
    When the leftover is a whole number, or at least 2.5, the investment
    does not exceed the leftover and cash plus investment is exactly the
    leftover. *)
Theorem allocation_conserves_leftover (l : Q) (r : string) (d a : Q) :
  0 <= l ->
  let alloc := allocationMemo l r d a in
  (0 <= recInvest alloc /\ whole (recInvest alloc) /\ 0 <= recSaveCash alloc) /\
  recSaveCash alloc + recInvest alloc == Math_max l (recInvest alloc) /\
  (whole l \/ 2.5 <= l ->
   recInvest alloc <= l /\ recSaveCash alloc + recInvest alloc == l).
Proof.
  intros Hl alloc. subst alloc.
  pose proof (nominalShare_range r d a) as [Lo Hi].
  assert (I0 : 0 <= recInvest (allocationMemo l r d a)).
  { rewrite recInvest_eq. apply Math_round_nonneg. nra. }
  assert (Sum : recSaveCash (allocationMemo l r d a)
                + recInvest (allocationMemo l r d a)
                == Math_max l (recInvest (allocationMemo l r d a))).
  { rewrite recSaveCash_eq. apply save_plus_invest. }
  split.
  { split; [exact I0|]. split; [rewrite recInvest_eq; apply Math_round_whole|].
    rewrite recSaveCash_eq. unfold Math_max. apply Q.le_max_l. }
  split; [exact Sum|].
  intro H. pose proof (recInvest_le_leftover l r d a Hl H) as Le.
  split; [exact Le|].
  rewrite Sum. unfold Math_max. apply Q.max_l. exact Le.
Qed.

Lemma allocation_conserves_leftover_witness :
  0 <= 735 /\
  recSaveCash (allocationMemo 735 "growth" 0 0)
  + recInvest (allocationMemo 735 "growth" 0 0) == 735.
Proof.
  assert (H : 0 <= 735) by qeval.
  split; [exact H|].
  destruct (allocation_conserves_leftover 735 "growth" 0 0 H) as (_ & _ & W).
  apply W. left. exists 735%Z. reflexivity.
Defined.

(** Below 2.5 a leftover that is not whole can be over-invested. *)
Example fractional_leftover_over_invested :
  recInvest (allocationMemo 1.9 "yolo" 0 0) == 2 /\
  recSaveCash (allocationMemo 1.9 "yolo" 0 0) == 0.
Proof. split; qeval. Qed.

(** X3.  In every state of the dashboard the leftover is not negative, the
    monthly amount routed to goals is at least the leftover, and the
    cushion shown as left after goals is 0. *)
Theorem cushion_after_goals_is_zero (s : Inputs) :
  0 <= leftover s /\
  leftover s <= monthlyToGoals s /\
  monthlyAfterGoals s == 0.
Proof.
  pose proof (leftover_nonneg s) as Hl.
  assert (G : leftover s <= monthlyToGoals s).
  { unfold monthlyToGoals, allocation. rewrite recSaveCash_eq.
    rewrite save_plus_invest. unfold Math_max. apply Q.le_max_l. }
  split; [exact Hl|]. split; [exact G|].
  unfold monthlyAfterGoals, Math_max. apply Q.max_l. lra.
Qed.

(** X4.  The share and the invested amount are ordered by risk and by
    debt: no profile name gets a smaller base share than conservative or a
    larger one than yolo; the card's debt never raises the share; and for a
    leftover that is not negative, clearing the card never lowers the
    investment, conservative invests least and yolo most under the same
    debt, and a larger leftover never invests less. *)
Theorem investing_ordered_by_risk_and_debt :
  (forall r : string,
      baseShare "conservative" <= baseShare r /\
      baseShare r <= baseShare "yolo") /\
  (forall (r : string) (d a : Q), nominalShare r d a <= baseShare r) /\
  (forall (l : Q) (r : string) (d a : Q),
      0 <= l ->
      recInvest (allocationMemo l r d a)
        <= recInvest (allocationMemo l r 0 a)) /\
  (forall (l : Q) (r : string) (d a : Q),
      0 <= l ->
      recInvest (allocationMemo l "conservative" d a)
        <= recInvest (allocationMemo l r d a) /\
      recInvest (allocationMemo l r d a)
        <= recInvest (allocationMemo l "yolo" d a)) /\
  (forall (l1 l2 : Q) (r : string) (d a : Q),
      l1 <= l2 ->
      recInvest (allocationMemo l1 r d a)
        <= recInvest (allocationMemo l2 r d a)).
Proof.
  assert (Base : forall r : string,
             baseShare "conservative" <= baseShare r /\
             baseShare r <= baseShare "yolo").
  { intro r. destruct (baseShare_cases r) as [E | [E | [E | E]]];
      rewrite E; split; qeval. }
  assert (Debt : forall (r : string) (d a : Q),
             nominalShare r d a <= baseShare r).
  { intros r d a. unfold nominalShare.
    destruct (gt d 0 && gt a 10); [|lra].
    pose proof (override_below_base r). lra. }
  assert (Mono : forall (r1 r2 : string) (d a : Q),
             baseShare r1 <= baseShare r2 ->
             nominalShare r1 d a <= nominalShare r2 d a).
  { intros r1 r2 d a H. unfold nominalShare.
    destruct (gt d 0 && gt a 10); [|exact H].
    unfold Math_max. apply Q.max_le_compat_l. lra. }
  split; [exact Base|]. split; [exact Debt|].
  split.
  { intros l r d a Hl. rewrite !recInvest_eq. apply Math_round_mono.
    assert (E : nominalShare r 0 a = baseShare r).
    { apply nominalShare_no_override. reflexivity. }
    rewrite E. pose proof (Debt r d a). nra. }
  split.
  { intros l r d a Hl. rewrite !recInvest_eq.
    pose proof (Mono "conservative"%string r d a (proj1 (Base r))).
    pose proof (Mono r "yolo"%string d a (proj2 (Base r))).
    split; apply Math_round_mono; nra. }
  intros l1 l2 r d a H. rewrite !recInvest_eq. apply Math_round_mono.
  pose proof (nominalShare_range r d a) as [Lo _]. nra.
Qed.

Lemma investing_ordered_by_risk_and_debt_witness :
  0 <= 735 /\
  recInvest (allocationMemo 735 "balanced" 1200 19.99)
    <= recInvest (allocationMemo 735 "balanced" 0 19.99) /\
  (500 <= 735 /\
   recInvest (allocationMemo 500 "growth" 0 0)
     <= recInvest (allocationMemo 735 "growth" 0 0)).
Proof.
  destruct investing_ordered_by_risk_and_debt as (_ & _ & D & _ & M).
  assert (H : 0 <= 735) by qeval.
  split; [exact H|]. split; [apply (D 735 "balanced"%string 1200 19.99 H)|].
  assert (L : 500 <= 735) by qeval.
  split; [exact L | apply (M 500 735 "growth"%string 0 0 L)].
Defined.

(** ** Investment mix: the cap and the dashboard's buckets *)

Lemma Math_round_eq (x y : Q) : x == y -> Math_round x = Math_round y.
Proof.
  intro H. unfold Math_round. f_equal. apply Qfloor_comp. rewrite H.
  reflexivity.
Qed.

Lemma crypto_eq (total pct : Q) :
  crypto (investBreakdown total pct)
  = Math_round (total * (Math_min 10 (Math_max 0 pct) / 100)).
Proof. reflexivity. Qed.

Lemma investBreakdown_of_crypto (total p1 p2 : Q) :
  crypto (investBreakdown total p1) = crypto (investBreakdown total p2) ->
  investBreakdown total p1 = investBreakdown total p2.
Proof.
  rewrite !crypto_eq. intro H. unfold investBreakdown. rewrite H. reflexivity.
Qed.

Lemma buckets_of_whole (total pct : Q) :
  0 <= total -> whole total ->
  let b := investBreakdown total pct in
  (whole (crypto b) /\ whole (etf b) /\ whole (bond b)) /\
  (0 <= crypto b /\ 0 <= etf b /\ 0 <= bond b) /\
  crypto b + etf b + bond b == total.
Proof.
  intros Ht [n En] b.
  pose proof (crypto_le_total total pct Ht) as [C0 C1].
  pose proof (remaining_eq total pct Ht) as Hr.
  fold b in C0, C1, Hr.
  destruct (Math_round_whole (total * (Math_min 10 (Math_max 0 pct) / 100)))
    as [m Em].
  assert (Ec : crypto b == inject_Z m) by exact Em.
  set (rem := remainingAfterCrypto total pct) in *.
  assert (Wr : whole rem).
  { exists (n - m)%Z. rewrite Hr, Ec, En.
    replace (n - m)%Z with (n + - m)%Z by lia.
    rewrite inject_Z_plus, inject_Z_opp. ring. }
  assert (R0 : 0 <= rem) by lra.
  assert (Ee : etf b = Math_round (rem * 0.8)) by reflexivity.
  assert (Eb : bond b = Math_max 0 (rem - etf b)) by reflexivity.
  pose proof (etf_whole_le rem R0 Wr) as Le. rewrite <- Ee in Le.
  assert (E0 : 0 <= etf b) by (rewrite Ee; apply Math_round_nonneg; lra).
  destruct (Math_round_whole (rem * 0.8)) as [k Ek]. rewrite <- Ee in Ek.
  assert (Bv : bond b == rem - etf b).
  { rewrite Eb. unfold Math_max. apply Q.max_r. lra. }
  clearbody b rem.
  split.
  { split; [exists m; exact Ec|]. split; [exists k; exact Ek|].
    destruct Wr as [j Ej]. exists (j - k)%Z. rewrite Bv, Ej, Ek.
    replace (j - k)%Z with (j + - k)%Z by lia.
    rewrite inject_Z_plus, inject_Z_opp. ring. }
  split; [split; [exact C0 | split; [exact E0 | lra]] | lra].
Qed.

(** X5.  The crypto bucket honours the cap whatever percentage is passed:
    for an amount that is not negative it is at most a tenth of the amount
    plus the half unit of rounding, never more than the amount, 0 for a
    percentage of 0 or less, never smaller for a larger percentage, and any
    percentage of 10 or more gives the mix of exactly 10. *)
Theorem crypto_cap_honoured (total : Q) :
  0 <= total ->
  (forall pct : Q,
      crypto (investBreakdown total pct) <= total / 10 + 0.5 /\
      crypto (investBreakdown total pct) <= total /\
      (pct <= 0 -> crypto (investBreakdown total pct) == 0)) /\
  (forall p1 p2 : Q,
      p1 <= p2 ->
      crypto (investBreakdown total p1) <= crypto (investBreakdown total p2)) /\
  (forall pct : Q,
      10 <= pct -> investBreakdown total pct = investBreakdown total 10).
Proof.
  intro Ht. split; [|split].
  - intro pct. destruct (cap_range pct) as [C0 C10].
    pose proof (crypto_le_total total pct Ht) as [_ Le].
    rewrite crypto_eq in *.
    set (cap := Math_min 10 (Math_max 0 pct)) in *.
    assert (D : cap / 100 <= 1 # 10) by (apply Qle_shift_div_r; lra).
    pose proof (Math_round_upper (total * (cap / 100))) as Up.
    split; [|split; [exact Le|]].
    + assert (P : total * (cap / 100) <= total / 10).
      { assert (E : total / 10 == total * (1 # 10)) by (field; lra).
        rewrite E. nra. }
      lra.
    + intro Hp.
      assert (Z : cap == 0).
      { unfold cap, Math_min, Math_max.
        rewrite (Q.max_l 0 pct) by exact Hp. apply Q.min_r. lra. }
      assert (E : total * (cap / 100) == 0) by (rewrite Z; field).
      rewrite (Math_round_eq _ _ E). reflexivity.
  - intros p1 p2 H. rewrite !crypto_eq. apply Math_round_mono.
    assert (M : Math_min 10 (Math_max 0 p1) <= Math_min 10 (Math_max 0 p2)).
    { unfold Math_min, Math_max. apply Q.min_le_compat_l.
      apply Q.max_le_compat_l. exact H. }
    assert (D : Math_min 10 (Math_max 0 p1) / 100
                <= Math_min 10 (Math_max 0 p2) / 100).
    { apply Qmult_le_compat_r; [exact M | qeval]. }
    nra.
  - intros pct H. apply investBreakdown_of_crypto. rewrite !crypto_eq.
    apply Math_round_eq.
    assert (E : Math_min 10 (Math_max 0 pct) == Math_min 10 (Math_max 0 10)).
    { unfold Math_min, Math_max.
      rewrite (Q.max_r 0 pct) by lra. rewrite (Q.max_r 0 10) by lra.
      rewrite (Q.min_l 10 pct) by exact H. rewrite Q.min_id. reflexivity. }
    rewrite E. reflexivity.
Qed.

Lemma crypto_cap_honoured_witness :
  0 <= 404 /\
  crypto (investBreakdown 404 250) <= 404 / 10 + 0.5 /\
  investBreakdown 404 250 = investBreakdown 404 10.
Proof.
  assert (H : 0 <= 404) by qeval.
  destruct (crypto_cap_honoured 404 H) as (C & _ & S).
  split; [exact H|]. split; [apply (C 250) | apply (S 250); qeval].
Defined.

(** X6.  In every state of the dashboard the three buckets shown are whole
    amounts that are not negative and add up exactly to the recommended
    investment. *)
Theorem dashboard_buckets_add_up (s : Inputs) :
  let b := mix s in
  (whole (crypto b) /\ whole (etf b) /\ whole (bond b)) /\
  (0 <= crypto b /\ 0 <= etf b /\ 0 <= bond b) /\
  crypto b + etf b + bond b == recInvest (allocation s).
Proof.
  unfold mix, allocation. apply buckets_of_whole.
  - rewrite recInvest_eq. apply Math_round_nonneg.
    pose proof (leftover_nonneg s).
    pose proof (nominalShare_range (risk s) (ccDebt s) (ccApr s)) as [Lo _].
    nra.
  - rewrite recInvest_eq. apply Math_round_whole.
Qed.

(** ** Percentages that are displayed *)

Lemma clamp_0_100 (q : Q) :
  0 <= Math_max 0 (Math_min 100 q) /\ Math_max 0 (Math_min 100 q) <= 100.
Proof.
  unfold Math_max, Math_min. split; [apply Q.le_max_l|].
  apply Q.max_lub; [lra | apply Q.le_min_l].
Qed.

Lemma clamp_fixes (q : Q) :
  0 <= q -> q <= 100 -> Math_max 0 (Math_min 100 q) == q.
Proof.
  intros L U. unfold Math_max, Math_min.
  rewrite (Q.min_r 100 q) by exact U. apply Q.max_r. exact L.
Qed.

(** X7.  [clampPct] always yields a value between 0 and 100: a value in
    that range is kept, a finite value outside it goes to the nearer end,
    and a value that is not finite, positive infinity included, goes to 0.
    Clamping twice is clamping once. *)
Theorem clampPct_range :
  (forall n : num, 0 <= clampPct n /\ clampPct n <= 100) /\
  (forall q : Q, 0 <= q -> q <= 100 -> clampPct (Finite q) == q) /\
  (forall q : Q, 100 <= q -> clampPct (Finite q) == 100) /\
  (forall q : Q, q <= 0 -> clampPct (Finite q) == 0) /\
  (forall n : num, Number_isFinite n = false -> clampPct n = 0) /\
  (forall n : num, clampPct (Finite (clampPct n)) == clampPct n).
Proof.
  assert (R : forall n : num, 0 <= clampPct n /\ clampPct n <= 100).
  { intros [q | | |]; cbn; try (split; qeval). apply clamp_0_100. }
  split; [exact R|].
  split; [intros q L U; apply clamp_fixes; assumption|].
  split.
  { intros q H. cbn. unfold Math_max, Math_min.
    rewrite (Q.min_l 100 q) by exact H. apply Q.max_r. lra. }
  split.
  { intros q H. cbn. unfold Math_max, Math_min. apply Q.max_l.
    pose proof (Q.le_min_r 100 q). lra. }
  split; [intros [q | | |] H; [discriminate H | reflexivity ..]|].
  intro n. destruct (R n). apply clamp_fixes; assumption.
Qed.

Lemma clampPct_range_witness :
  (0 <= 42.5 /\ 42.5 <= 100 /\ clampPct (Finite 42.5) == 42.5) /\
  (100 <= 164 /\ clampPct (Finite 164) == 100) /\
  clampPct PosInfinity = 0.
Proof.
  destruct clampPct_range as (_ & K & H & _ & N & _).
  assert (L : 0 <= 42.5) by qeval. assert (U : 42.5 <= 100) by qeval.
  assert (B : 100 <= 164) by qeval.
  split; [split; [exact L | split; [exact U | apply (K 42.5 L U)]]|].
  split; [split; [exact B | apply (H 164 B)]|].
  apply (N PosInfinity). reflexivity.
Defined.

(** X8.  In a goal row the progress bar is between 0 and 100; once the
    saved amount has reached a target of at least 1 the bar is full and
    both projections are 0 months; and for a boost that is not negative the
    months shown as saved are the base projection less the boosted one,
    which is not negative. *)
Theorem goal_row_progress (t sv : Q) :
  (0 <= GoalRow_clamped t sv /\ GoalRow_clamped t sv <= 100) /\
  (1 <= t -> t <= sv ->
   GoalRow_clamped t sv == 100 /\
   forall monthly boost : Q,
     GoalRow_mBase t sv monthly boost = 0 /\
     GoalRow_mBoost t sv monthly boost = 0 /\
     GoalRow_delta t sv monthly boost == 0) /\
  (sv <= 0 -> GoalRow_clamped t sv == 0) /\
  (forall monthly boost : Q,
      0 <= boost ->
      0 <= GoalRow_delta t sv monthly boost /\
      GoalRow_delta t sv monthly boost
      == GoalRow_mBase t sv monthly boost - GoalRow_mBoost t sv monthly boost).
Proof.
  split; [apply clamp_0_100|].
  split.
  { intros T S. split.
    - unfold GoalRow_clamped, clampPct, Math_max, Math_min.
      assert (P : 100 <= GoalRow_pctTrue t sv).
      { unfold GoalRow_pctTrue.
        assert (M : Math_max 1 t == t) by (unfold Math_max; apply Q.max_r; exact T).
        assert (O : 1 <= sv / Math_max 1 t).
        { rewrite M. apply Qle_shift_div_l; lra. }
        pose proof (Math_round_mono 100 (sv / Math_max 1 t * 100)) as R.
        change (Math_round 100) with 100 in R. apply R. lra. }
      rewrite (Q.min_l 100 _) by exact P. apply Q.max_r. lra.
    - intros monthly boost. unfold GoalRow_delta, GoalRow_mBase, GoalRow_mBoost.
      rewrite !(monthsToGoal_done t sv _ S).
      split; [reflexivity|]. split; [reflexivity|]. qeval. }
  split.
  { intro S. unfold GoalRow_clamped, clampPct, Math_max, Math_min.
    assert (P : GoalRow_pctTrue t sv <= 0).
    { unfold GoalRow_pctTrue.
      assert (O : sv / Math_max 1 t <= 0).
      { apply Qle_shift_div_r; [apply Math_max_1_pos | lra]. }
      pose proof (Math_round_mono (sv / Math_max 1 t * 100) 0) as R.
      change (Math_round 0) with 0 in R. apply R. lra. }
    apply Q.max_l. pose proof (Q.le_min_r 100 (GoalRow_pctTrue t sv)). lra. }
  intros monthly boost B.
  assert (L : GoalRow_mBoost t sv monthly boost
              <= GoalRow_mBase t sv monthly boost).
  { unfold GoalRow_mBoost, GoalRow_mBase. apply monthsToGoal_antitone. lra. }
  unfold GoalRow_delta, Math_max.
  split; [apply Q.le_max_l | apply Q.max_r; lra].
Qed.

Lemma goal_row_progress_witness :
  (1 <= 3000 /\ 3000 <= 3200 /\ GoalRow_clamped 3000 3200 == 100) /\
  (0 <= 300 /\ GoalRow_delta 25000 8200 735 300 == 6).
Proof.
  assert (T : 1 <= 3000) by qeval. assert (S : 3000 <= 3200) by qeval.
  assert (B : 0 <= 300) by qeval.
  split.
  - split; [exact T|]. split; [exact S|].
    destruct (goal_row_progress 3000 3200) as (_ & F & _).
    exact (proj1 (F T S)).
  - split; [exact B|].
    destruct (goal_row_progress 25000 8200) as (_ & _ & _ & D).
    rewrite (proj2 (D 735 300 B)). qeval.
Defined.

(** ** The allocation chart *)

Lemma totalOf_acc (data : list Slice) (a : Q) :
  fold_left (fun a b => a + value b) data a == a + totalOf data.
Proof.
  unfold totalOf. revert a.
  induction data as [|d rest IH]; intro a; cbn [fold_left]; [ring|].
  rewrite (IH (a + value d)), (IH (0 + value d)). ring.
Qed.

Lemma totalOf_cons (d : Slice) (rest : list Slice) :
  totalOf (d :: rest) == value d + totalOf rest.
Proof.
  unfold totalOf at 1. cbn [fold_left]. rewrite totalOf_acc. ring.
Qed.

Lemma totalOf_bounds (data : list Slice) :
  (forall d, In d data -> 0 <= value d) ->
  0 <= totalOf data /\ forall d, In d data -> value d <= totalOf data.
Proof.
  induction data as [|x rest IH]; intro H.
  - split; [qeval | intros d []].
  - destruct IH as [T0 T1]; [intros d Hd; apply H; now right|].
    pose proof (H x (or_introl eq_refl)) as X0.
    pose proof (totalOf_cons x rest) as E.
    split; [lra|].
    intros d [<- | Hd]; [lra | pose proof (T1 d Hd); lra].
Qed.

Lemma totalOf_filter (data : list Slice) :
  (forall d, In d data -> 0 <= value d) ->
  totalOf (filter keepSlice data) == totalOf data.
Proof.
  induction data as [|x rest IH]; intro H; [reflexivity|].
  assert (R : totalOf (filter keepSlice rest) == totalOf rest).
  { apply IH. intros d Hd. apply H. now right. }
  pose proof (H x (or_introl eq_refl)) as X0.
  cbn [filter]. unfold keepSlice at 1. cbn [andb].
  destruct (gt (value x) 0) eqn:G.
  - rewrite !totalOf_cons, R. reflexivity.
  - apply gt_false_iff in G. rewrite totalOf_cons, R. lra.
Qed.

Lemma keepSlice_positive (d : Slice) : keepSlice d = true <-> 0 < value d.
Proof. unfold keepSlice. cbn [andb]. apply gt_true_iff. Qed.

(** The slice the [reduce] of line 953 ends with, started at [first]. *)
Lemma fold_largest (rest : list Slice) (first : Slice) :
  let m :=
    fold_left
      (fun prev cur => if gt (value cur) (value prev) then cur else prev)
      rest first in
  (forall e, In e (first :: rest) -> value e <= value m) /\
  exists pre post,
    first :: rest = pre ++ m :: post /\ forall e, In e pre -> value e < value m.
Proof.
  revert first. induction rest as [|c r IH]; intro first; cbn [fold_left].
  - split; [intros e [<- | []]; lra|].
    exists [], []. split; [reflexivity | intros e []].
  - destruct (gt (value c) (value first)) eqn:G.
    + apply gt_true_iff in G.
      destruct (IH c) as [Max (pre & post & E & Lt)].
      set (m := fold_left _ r c) in *.
      pose proof (Max c (or_introl eq_refl)) as Cm.
      split.
      * intros e [<- | He]; [lra | apply Max, He].
      * exists (first :: pre), post. split; [cbn; rewrite E; reflexivity|].
        intros e [<- | He]; [lra | apply Lt, He].
    + apply gt_false_iff in G.
      destruct (IH first) as [Max (pre & post & E & Lt)].
      set (m := fold_left _ r first) in *.
      pose proof (Max first (or_introl eq_refl)) as Fm.
      split.
      * intros e [<- | [<- | He]]; [exact Fm | lra | apply Max; now right].
      * destruct pre as [|p pre'].
        -- cbn in E. injection E as E1 E2.
           exists [], (c :: r). split; [cbn; rewrite <- E1; reflexivity|].
           intros e [].
        -- cbn in E. injection E as E1 E2.
           exists (first :: c :: pre'), post.
           split; [cbn; rewrite E2; reflexivity|].
           pose proof (Lt p (or_introl eq_refl)) as Pm. rewrite <- E1 in Pm.
           intros e [<- | [<- | He]]; [exact Pm | lra | apply Lt; now right].
Qed.

(** X9.  The chart keeps exactly the slices with a positive value.  Its
    largest slice is absent exactly when no slice is kept; otherwise it is
    one of the kept slices, no kept slice has a larger value, and it is the
    first of those with that value.  The total is not negative, no kept
    slice exceeds it, and the share shown beside a kept slice is between 0
    and 100. *)
Theorem allocation_chart_largest (s : Inputs) :
  let data := allocationData s in
  (forall d, In d data <-> In d (slices s) /\ 0 < value d) /\
  (largestAllocation s = None <-> data = []) /\
  (forall m, largestAllocation s = Some m ->
     In m data /\
     (forall e, In e data -> value e <= value m) /\
     exists pre post,
       data = pre ++ m :: post /\ forall e, In e pre -> value e < value m) /\
  0 <= totalWithRec s /\
  (forall d, In d data ->
     value d <= totalWithRec s /\ 0 <= slicePct s d /\ slicePct s d <= 100).
Proof.
  intro data.
  assert (Pos : forall d, In d data <-> In d (slices s) /\ 0 < value d).
  { intro d. unfold data, allocationData. rewrite filter_In, keepSlice_positive.
    reflexivity. }
  assert (P0 : forall d, In d data -> 0 <= value d).
  { intros d Hd. apply Pos in Hd. lra. }
  assert (T : 0 <= totalWithRec s /\
              forall d, In d data -> value d <= totalWithRec s)
    by exact (totalOf_bounds data P0).
  destruct T as [T0 T1].
  split; [exact Pos|].
  split.
  { unfold largestAllocation, largestOf. fold data.
    destruct data; split; congruence. }
  split.
  { intros m H. unfold largestAllocation, largestOf in H. fold data in H.
    destruct data as [|first rest]; [discriminate|].
    injection H as <-.
    destruct (fold_largest rest first) as [Max (pre & post & E & Lt)].
    split; [rewrite E; apply in_or_app; right; now left|].
    split; [exact Max | exists pre, post; split; [exact E | exact Lt]]. }
  split; [exact T0|].
  intros d Hd. pose proof (T1 d Hd) as Le. pose proof (P0 d Hd) as D0.
  split; [exact Le|].
  unfold slicePct.
  pose proof (Math_max_1_pos (totalWithRec s)) as M.
  assert (M1 : totalWithRec s <= Math_max 1 (totalWithRec s))
    by (unfold Math_max; apply Q.le_max_r).
  assert (X0 : 0 <= value d / Math_max 1 (totalWithRec s))
    by (apply Qle_shift_div_l; lra).
  assert (X1 : value d / Math_max 1 (totalWithRec s) <= 1)
    by (apply Qle_shift_div_r; lra).
  split; [apply Math_round_nonneg; lra|].
  pose proof (Math_round_mono
                (value d / Math_max 1 (totalWithRec s) * 100) 100) as R.
  change (Math_round 100) with 100 in R. apply R. lra.
Qed.

Lemma allocation_chart_largest_witness :
  exists m, largestAllocation initial = Some m /\
            sliceName m = "housing"%string /\
            (forall e, In e (allocationData initial) -> value e <= value m).
Proof.
  exists (mkSlice "housing" 2000).
  assert (H : largestAllocation initial = Some (mkSlice "housing" 2000))
    by (vm_compute; reflexivity).
  split; [exact H|]. split; [reflexivity|].
  destruct (allocation_chart_largest initial) as (_ & _ & L & _).
  exact (proj1 (proj2 (L _ H))).
Defined.

(** X10.  When none of the eight expenses is negative the chart's total is
    the planned spend plus the monthly amount routed to goals; when
    moreover the spend is within the income and the leftover is whole or
    at least 2.5, the chart's total is exactly the income. *)
Theorem chart_total_is_income (s : Inputs) :
  Forall (Qle 0)
    [ rent s; utilities s; insurance s; transport s; groceries s; dining s;
      subscriptions s; other s ] ->
  totalWithRec s == spendTotal s + monthlyToGoals s /\
  (spendTotal s <= income s ->
   whole (leftover s) \/ 2.5 <= leftover s ->
   totalWithRec s == income s).
Proof.
  intro H.
  repeat match goal with
         | H : Forall _ (_ :: _) |- _ => inversion_clear H
         end.
  pose proof (leftover_nonneg s) as Hl.
  assert (A : 0 <= recInvest (allocation s) /\ 0 <= recSaveCash (allocation s)).
  { unfold allocation. split.
    - rewrite recInvest_eq. apply Math_round_nonneg.
      pose proof (nominalShare_range (risk s) (ccDebt s) (ccApr s)) as [Lo _].
      nra.
    - rewrite recSaveCash_eq. unfold Math_max. apply Q.le_max_l. }
  destruct A as [I0 S0].
  assert (T : totalWithRec s == spendTotal s + monthlyToGoals s).
  { unfold totalWithRec, allocationData. rewrite totalOf_filter.
    - unfold slices. rewrite !totalOf_cons. unfold totalOf. cbn [fold_left value].
      unfold spendTotal, fixedTotal, variableTotal, monthlyToGoals. ring.
    - intros d Hd. unfold slices in Hd. cbn [In] in Hd.
      repeat (destruct Hd as [<- | Hd]; [cbn [value]; assumption|]).
      destruct Hd. }
  split; [exact T|].
  intros Within W. rewrite T.
  assert (L : leftover s == income s - spendTotal s).
  { unfold leftover, Math_max. apply Q.max_r. lra. }
  assert (G : monthlyToGoals s == leftover s).
  { unfold monthlyToGoals, allocation. rewrite recSaveCash_eq, save_plus_invest.
    unfold Math_max. apply Q.max_l.
    apply recInvest_le_leftover; assumption. }
  rewrite G, L. ring.
Qed.

Lemma chart_total_is_income_witness :
  totalWithRec initial == income initial.
Proof.
  destruct (chart_total_is_income initial) as [_ W].
  - repeat constructor; qeval.
  - apply W; [qeval | left; exists 735%Z; qeval].
Defined.

(** ** Insights: what the cap of five leaves out *)

(** X11.  The cap of five drops nothing unless all six rules fire, and then
    it drops exactly the emergency-fund insight, the last one; so whenever
    the core spend is positive the list is not empty and either holds the
    emergency-fund insight or is full.  The two focus insights of the
    dashboard are the first two that the rules emit. *)
Theorem insights_cap_drops_only_emergency_fund :
  (forall i r d a sub din m core em : Q,
      let out := insightsMemo i r d a sub din m core em in
      let all := emitted i r d a sub din m core em in
      (out = all \/
       ((35 < housingPct i r /\ (0 < d /\ 15 <= a) /\ 40 < sub /\ 200 < din /\
         m < 500 /\ 0 < core) /\
        out = [ housingInsight i r; debtInsight d a m; subscriptionsInsight sub;
                diningInsight din; savingsInsight i m ] /\
        all = out ++ [emergencyInsight core em])) /\
      (0 < core ->
       out <> [] /\
       (In (emergencyInsight core em) out \/ length out = 5%nat))) /\
  (forall s : Inputs,
      focusInsights s
      = firstn 2 (emitted (income s) (rent s) (ccDebt s) (ccApr s)
                    (subscriptions s) (dining s) (monthlyToGoals s)
                    (monthlyCoreSpend s) (emergencyTarget s))).
Proof.
  split.
  - intros i r d a sub din m core em out all. subst out all.
    rewrite insightsMemo_emitted.
    unfold emitted, rules, housing_high, high_interest_debt,
      subscriptions_audit, dining_creep, low_savings_rate, emergency_fund, emit.
    destruct (gt (housingPct i r) 35) eqn:B1;
      destruct (gt d 0 && ge a 15) eqn:B2;
      destruct (gt sub 40) eqn:B3;
      destruct (gt din 200) eqn:B4;
      destruct (lt m 500) eqn:B5;
      destruct (gt core 0) eqn:B6;
      cbn [flat_map app firstn];
      (split;
       [ first
           [ left; reflexivity
           | right;
             apply gt_true_iff in B1, B3, B4, B6; apply lt_true_iff in B5;
             apply andb_true_iff in B2; destruct B2 as [B2 B2'];
             apply gt_true_iff in B2; apply ge_true_iff in B2';
             repeat split; assumption ]
       | intro C;
         first
           [ apply gt_true_iff in C; rewrite C in B6; discriminate B6
           | split;
             [ discriminate
             | first [ right; reflexivity
                     | left; cbn [In]; tauto ] ] ] ]).
  - intro s. unfold focusInsights, insights. rewrite insightsMemo_emitted.
    rewrite firstn_firstn. reflexivity.
Qed.

Lemma insights_cap_drops_only_emergency_fund_witness :
  0 < monthlyCoreSpend tight_budget /\
  insights tight_budget <> [] /\
  length (insights tight_budget) = 5%nat.
Proof.
  assert (H : 0 < monthlyCoreSpend tight_budget) by qeval.
  split; [exact H|].
  destruct insights_cap_drops_only_emergency_fund as [C _].
  split.
  - exact (proj1 (proj2 (C _ _ _ _ _ _ _ _ _) H)).
  - vm_compute. reflexivity.
Defined.

(** ** The stepper buttons of a numeric field *)

Lemma Math_round_near (x : Q) (n : Z) :
  inject_Z n - 0.5 <= x -> x < inject_Z n + 0.5 -> Math_round x == inject_Z n.
Proof.
  intros L U. apply Qle_antisym; [apply Math_round_le_whole; exact U|].
  unfold Math_round. rewrite <- Zle_Qle.
  rewrite <- (Qfloor_Z n) at 1. apply Qfloor_resp_le. lra.
Qed.

(** X12.  The two stepper buttons always set a whole value that is not
    negative.  On a whole value and with a whole step the plus button adds
    the step and the minus button subtracts it down to 0, so minus undoes
    plus.  With a step below one half (the 0.1 of the student-loan rate)
    neither button changes a whole value. *)
Theorem stepper_buttons (val step : Q) :
  (whole (LabeledNumber.minus val step) /\ 0 <= LabeledNumber.minus val step /\
   whole (LabeledNumber.plus val step) /\ 0 <= LabeledNumber.plus val step) /\
  (whole val -> whole step -> 0 <= val -> 0 <= step ->
   LabeledNumber.plus val step == val + step /\
   LabeledNumber.minus val step == Math_max 0 (val - step) /\
   LabeledNumber.minus (LabeledNumber.plus val step) step == val) /\
  (whole val -> 0 <= val -> 0 <= step -> step < 0.5 ->
   LabeledNumber.plus val step == val /\ LabeledNumber.minus val step == val).
Proof.
  assert (W : forall x : Q, whole (Math_max 0 (Math_round x))).
  { intro x. destruct (Math_round_whole x) as [k Ek]. unfold Math_max.
    destruct (Q.max_spec 0 (Math_round x)) as [[_ E] | [_ E]].
    - exists k. rewrite E. exact Ek.
    - exists 0%Z. rewrite E. reflexivity. }
  assert (N : forall x : Q, 0 <= Math_max 0 (Math_round x)).
  { intro x. unfold Math_max. apply Q.le_max_l. }
  split; [unfold LabeledNumber.minus, LabeledNumber.plus; auto|].
  split.
  - intros [n En] [k Ek] V S.
    assert (P : Math_round (val + step) == val + step).
    { rewrite (Math_round_near (val + step) (n + k)); rewrite inject_Z_plus; lra. }
    assert (M : Math_round (val - step) == val - step).
    { rewrite (Math_round_near (val - step) (n + - k));
        rewrite inject_Z_plus, inject_Z_opp; lra. }
    assert (Pl : LabeledNumber.plus val step == val + step).
    { unfold LabeledNumber.plus, Math_max. rewrite P. apply Q.max_r. lra. }
    split; [exact Pl|].
    split; [unfold LabeledNumber.minus; rewrite M; reflexivity|].
    unfold LabeledNumber.minus.
    assert (R : Math_round (LabeledNumber.plus val step - step) == val).
    { rewrite (Math_round_near _ n); lra. }
    rewrite R. unfold Math_max. apply Q.max_r. exact V.
  - intros [n En] V S0 S1. unfold LabeledNumber.plus, LabeledNumber.minus.
    rewrite (Math_round_near (val + step) n) by lra.
    rewrite (Math_round_near (val - step) n) by lra.
    rewrite <- En. unfold Math_max. split; apply Q.max_r; exact V.
Qed.

Lemma stepper_buttons_witness :
  LabeledNumber.minus (LabeledNumber.plus 2000 10) 10 == 2000 /\
  LabeledNumber.plus 5 0.1 == 5.
Proof.
  destruct (stepper_buttons 2000 10) as (_ & R & _).
  destruct (stepper_buttons 5 0.1) as (_ & _ & D).
  split.
  - apply R; [exists 2000%Z | exists 10%Z | |]; qeval.
  - apply D; [exists 5%Z | | |]; qeval.
Defined.

(** ** The onboarding wizard: moving between the steps *)

Lemma ten_steps (step : Z) :
  (0 <= step < OnboardingWizard.steps_length)%Z ->
  step = 0%Z \/ step = 1%Z \/ step = 2%Z \/ step = 3%Z \/ step = 4%Z \/
  step = 5%Z \/ step = 6%Z \/ step = 7%Z \/ step = 8%Z \/ step = 9%Z.
Proof. change OnboardingWizard.steps_length with 10%Z. lia. Qed.

Lemma onClick_keeps_step_in_range (sc : OnboardingWizard.screen)
    (c : OnboardingWizard.click) :
  match sc with
  | OnboardingWizard.Onboarding step =>
      (0 <= step < OnboardingWizard.steps_length)%Z
  | OnboardingWizard.Dashboard => True
  end ->
  match OnboardingWizard.onClick sc c with
  | OnboardingWizard.Onboarding step =>
      (0 <= step < OnboardingWizard.steps_length)%Z
  | OnboardingWizard.Dashboard => True
  end.
Proof.
  destruct sc as [step|]; intro H; destruct c; cbn;
    unfold OnboardingWizard.continue, OnboardingWizard.back,
      OnboardingWizard.getStarted;
    change OnboardingWizard.steps_length with 10%Z in *;
    try exact I; try lia.
  - destruct (step =? 0)%Z eqn:E; [apply Z.eqb_eq in E; lia | exact H].
  - destruct (step =? 0)%Z eqn:E; [exact H | apply Z.eqb_neq in E; lia].
  - destruct (10 - 1 <=? step)%Z eqn:E; [exact I | apply Z.leb_gt in E; lia].
  - destruct (step =? 9)%Z; [exact I | exact H].
Qed.

(** X13.  However the buttons are clicked from the first step, the wizard
    stays on one of its ten steps until it hands over to the dashboard, so
    the step shown always exists.  Before the last step Continue moves one
    step forward and Back undoes it; the onboarding is completed on the
    last step only, by that button or by one of the two buttons of the
    step's body, and no other click leaves the wizard.  On step [k] of the
    ten the progress bar shows [10 * (k + 1)] percent, and at most two
    upcoming steps are listed, none exactly on the last step. *)
Theorem wizard_navigation :
  (forall cs : list OnboardingWizard.click,
      match OnboardingWizard.clicks (OnboardingWizard.Onboarding 0) cs with
      | OnboardingWizard.Onboarding step =>
          (0 <= step < OnboardingWizard.steps_length)%Z /\
          nth_error OnboardingWizard.steps (Z.to_nat step) <> None
      | OnboardingWizard.Dashboard => True
      end) /\
  (forall step : Z,
      (0 <= step < OnboardingWizard.steps_length)%Z ->
      (forall c : OnboardingWizard.click,
          OnboardingWizard.onClick (OnboardingWizard.Onboarding step) c
          = OnboardingWizard.Dashboard <->
          (c = OnboardingWizard.ClickContinue \/
           c = OnboardingWizard.ClickGoToDashboard) /\
          step = (OnboardingWizard.steps_length - 1)%Z) /\
      (step < OnboardingWizard.steps_length - 1 ->
       OnboardingWizard.onClick (OnboardingWizard.Onboarding step)
         OnboardingWizard.ClickContinue
       = OnboardingWizard.Onboarding (step + 1) /\
       OnboardingWizard.onClick (OnboardingWizard.Onboarding (step + 1))
         OnboardingWizard.ClickBack
       = OnboardingWizard.Onboarding step)%Z /\
      OnboardingWizard.progressPct step == inject_Z (10 * (step + 1)) /\
      length (OnboardingWizard.upcomingSteps step)
      = Nat.min 2 (Z.to_nat (OnboardingWizard.steps_length - 1 - step))).
Proof.
  split.
  - intro cs.
    assert (Inv : forall sc,
               match sc with
               | OnboardingWizard.Onboarding step =>
                   (0 <= step < OnboardingWizard.steps_length)%Z
               | OnboardingWizard.Dashboard => True
               end ->
               match OnboardingWizard.clicks sc cs with
               | OnboardingWizard.Onboarding step =>
                   (0 <= step < OnboardingWizard.steps_length)%Z
               | OnboardingWizard.Dashboard => True
               end).
    { unfold OnboardingWizard.clicks.
      induction cs as [|c rest IH]; intros sc H; cbn [fold_left]; [exact H|].
      apply IH, onClick_keeps_step_in_range, H. }
    specialize (Inv (OnboardingWizard.Onboarding 0)).
    destruct (OnboardingWizard.clicks _ cs) as [step|]; [|exact I].
    assert (R : (0 <= step < OnboardingWizard.steps_length)%Z).
    { apply Inv. change OnboardingWizard.steps_length with 10%Z. lia. }
    split; [exact R|].
    apply nth_error_Some. change (length OnboardingWizard.steps) with 10%nat.
    change OnboardingWizard.steps_length with 10%Z in R. lia.
  - intros step R. pose proof (ten_steps step R) as T.
    split; [|split; [|split]].
    + intro c. split.
      * intro H. destruct c; cbn in H;
          try (destruct (step =? 0)%Z; discriminate H); try discriminate H.
        -- unfold OnboardingWizard.continue in H.
           destruct (OnboardingWizard.steps_length - 1 <=? step)%Z eqn:E;
             [|discriminate H].
           apply Z.leb_le in E. split; [left; reflexivity | lia].
        -- change OnboardingWizard.steps_length with 10%Z in *.
           destruct (step =? 9)%Z eqn:E; [|discriminate H].
           apply Z.eqb_eq in E. split; [right; reflexivity | lia].
      * intros [[-> | ->] ->]; reflexivity.
    + change OnboardingWizard.steps_length with 10%Z. intro L.
      repeat (destruct T as [-> | T]; [split; reflexivity|]). lia.
    + repeat (destruct T as [-> | T]; [qeval|]). subst step. qeval.
    + repeat (destruct T as [-> | T]; [reflexivity|]). subst step. reflexivity.
Qed.

Lemma wizard_navigation_witness :
  (0 <= 8 < OnboardingWizard.steps_length)%Z /\
  OnboardingWizard.onClick (OnboardingWizard.Onboarding 8)
    OnboardingWizard.ClickContinue = OnboardingWizard.Onboarding 9 /\
  OnboardingWizard.progressPct 8 == 90.
Proof.
  assert (R : (0 <= 8 < OnboardingWizard.steps_length)%Z)
    by (change OnboardingWizard.steps_length with 10%Z; lia).
  destruct (proj2 wizard_navigation 8%Z R) as (_ & C & P & _).
  split; [exact R|]. split.
  - apply C. reflexivity.
  - rewrite P. qeval.
Defined.

(** ** The seed: from the wizard to the dashboard *)

Lemma numberCell_twice (key : string) (fields : list (string * Seed.json))
    (current : Q) :
  Seed.numberCell key fields (Seed.numberCell key fields current)
  = Seed.numberCell key fields current.
Proof.
  unfold Seed.numberCell. destruct (Seed.lookup key fields) as [[]|]; reflexivity.
Qed.

Lemma stringCell_twice (key : string) (fields : list (string * Seed.json))
    (current : string) :
  Seed.stringCell key fields (Seed.stringCell key fields current)
  = Seed.stringCell key fields current.
Proof.
  unfold Seed.stringCell. destruct (Seed.lookup key fields) as [[]|]; reflexivity.
Qed.

(** X14.  What the wizard saves is what the dashboard starts from: after a
    seed has been stored, a dashboard that mounts has the wizard's thirteen
    amounts and rates, its risk profile and its crypto percentage,
    whatever was stored before and whatever the province, age and primary
    goal are; its what-if boost is 0 and its leftover is the wizard's.
    When storing fails the dashboard starts from what was stored before.
    Without an item, with a text that does not parse, or with a parsed
    value that is not an object, the cells keep their values; and loading
    twice is loading once. *)
Theorem seed_round_trip :
  (forall (w : OnboardingWizard.Wizard) (old : Seed.item),
      Seed.mounted (Seed.saveSeed w true old)
      = mkInputs (OnboardingWizard.income w) (OnboardingWizard.rent w)
          (OnboardingWizard.utilities w) (OnboardingWizard.insurance w)
          (OnboardingWizard.transport w) (OnboardingWizard.groceries w)
          (OnboardingWizard.dining w) (OnboardingWizard.subscriptions w)
          (OnboardingWizard.other w) (OnboardingWizard.ccDebt w)
          (OnboardingWizard.ccApr w) (OnboardingWizard.studentLoan w)
          (OnboardingWizard.studentApr w) (OnboardingWizard.risk w)
          (OnboardingWizard.cryptoPct w) 0 /\
      leftover (Seed.mounted (Seed.saveSeed w true old))
      = OnboardingWizard.leftover w /\
      Seed.mounted (Seed.saveSeed w false old) = Seed.mounted old) /\
  (forall cells : Inputs,
      Seed.load Seed.NoItem cells = cells /\
      Seed.load (Seed.Text None) cells = cells /\
      forall v : Seed.json,
        (forall fields, v <> Seed.JObject fields) ->
        Seed.load (Seed.Text (Some v)) cells = cells) /\
  (forall (it : Seed.item) (cells : Inputs),
      Seed.load it (Seed.load it cells) = Seed.load it cells /\
      whatIf (Seed.load it cells) = whatIf cells).
Proof.
  split; [|split].
  - intros w old. split; [reflexivity|]. split; reflexivity.
  - intro cells. split; [reflexivity|]. split; [reflexivity|].
    intros v H. destruct v; try reflexivity. exfalso. apply (H fields).
    reflexivity.
  - intros it cells.
    destruct it as [|[v|]]; [split; reflexivity | | split; reflexivity].
    destruct v; try (split; reflexivity).
    split; [|reflexivity].
    unfold Seed.load. cbn [income rent utilities insurance transport groceries
      dining subscriptions other ccDebt ccApr studentLoan studentApr risk
      cryptoPct whatIf].
    rewrite !numberCell_twice, stringCell_twice. reflexivity.
Qed.

Lemma seed_round_trip_witness :
  (forall fields, Seed.JArray [Seed.JNumber 1] <> Seed.JObject fields) /\
  Seed.load (Seed.Text (Some (Seed.JArray [Seed.JNumber 1]))) initial = initial.
Proof.
  assert (H : forall fields,
             Seed.JArray [Seed.JNumber 1] <> Seed.JObject fields)
    by (intros fields E; discriminate E).
  split; [exact H|].
  destruct seed_round_trip as (_ & L & _).
  destruct (L initial) as (_ & _ & N).
  exact (N (Seed.JArray [Seed.JNumber 1]) H).
Defined.

(** X15.  The amount the summary step announces as going to goals never
    exceeds what the dashboard then routes to goals from the saved seed,
    and equals it whenever that amount is whole or at least 2.5. *)
Theorem summary_matches_dashboard (w : OnboardingWizard.Wizard)
    (old : Seed.item) :
  let d := Seed.mounted (Seed.saveSeed w true old) in
  OnboardingWizard.summaryToGoals w <= monthlyToGoals d /\
  (whole (OnboardingWizard.summaryToGoals w) \/
   2.5 <= OnboardingWizard.summaryToGoals w ->
   monthlyToGoals d == OnboardingWizard.summaryToGoals w).
Proof.
  intro d.
  assert (E : leftover d = OnboardingWizard.summaryToGoals w) by reflexivity.
  rewrite <- E. pose proof (leftover_nonneg d) as Hl.
  assert (G : monthlyToGoals d == Math_max (leftover d) (recInvest (allocation d))).
  { unfold monthlyToGoals, allocation. rewrite recSaveCash_eq.
    apply save_plus_invest. }
  split; [rewrite G; unfold Math_max; apply Q.le_max_l|].
  intro H. rewrite G. unfold Math_max. apply Q.max_l.
  unfold allocation. apply recInvest_le_leftover; assumption.
Qed.

Lemma summary_matches_dashboard_witness :
  monthlyToGoals
    (Seed.mounted
       (Seed.saveSeed
          (OnboardingWizard.mkWizard "Ontario" (Finite 27) 4000 2000 180 120 160
             420 220 45 120 1200 19.99 8000 5.2 "Condo Down Payment" "growth" 0)
          true Seed.NoItem))
  == 735.
Proof.
  destruct (summary_matches_dashboard
              (OnboardingWizard.mkWizard "Ontario" (Finite 27) 4000 2000 180 120
                 160 420 220 45 120 1200 19.99 8000 5.2 "Condo Down Payment"
                 "growth" 0)
              Seed.NoItem) as [_ W].
  rewrite W; [qeval | left; exists 735%Z; qeval].
Defined.

(** ** Text: trimming *)

Lemma dropWhiteSpace_head (l : list ascii) (c : ascii) (r : list ascii) :
  dropWhiteSpace l = c :: r -> isWhiteSpace c = false.
Proof.
  induction l as [|x l IH]; cbn; [discriminate|].
  destruct (isWhiteSpace x) eqn:E; [exact IH|].
  intro H. injection H as <- _. exact E.
Qed.

Lemma dropWhiteSpace_fixed (l : list ascii) :
  (forall c r, l = c :: r -> isWhiteSpace c = false) -> dropWhiteSpace l = l.
Proof.
  destruct l as [|x l]; intro H; [reflexivity|].
  cbn. rewrite (H x l eq_refl). reflexivity.
Qed.

Lemma dropWhiteSpace_again (l : list ascii) :
  dropWhiteSpace (dropWhiteSpace l) = dropWhiteSpace l.
Proof.
  apply dropWhiteSpace_fixed. intros c r H.
  apply (dropWhiteSpace_head l c r H).
Qed.

Lemma dropWhiteSpace_suffix (l : list ascii) :
  exists w, l = w ++ dropWhiteSpace l.
Proof.
  induction l as [|x l [w IH]]; [exists []; reflexivity|].
  cbn. destruct (isWhiteSpace x).
  - exists (x :: w). cbn. rewrite <- IH. reflexivity.
  - exists []. reflexivity.
Qed.

(** [trim] on the characters. *)
Lemma trim_chars (s : string) :
  list_ascii_of_string (trim s)
  = rev (dropWhiteSpace (rev (dropWhiteSpace (list_ascii_of_string s)))).
Proof. unfold trim. apply list_ascii_of_string_of_list_ascii. Qed.

Lemma trimmed_chars_fixed (l : list ascii) :
  let b := rev (dropWhiteSpace (rev (dropWhiteSpace l))) in
  rev (dropWhiteSpace (rev (dropWhiteSpace b))) = b.
Proof.
  intro b.
  set (a := dropWhiteSpace l) in *.
  destruct (dropWhiteSpace_suffix (rev a)) as [w Hw].
  assert (Ea : a = b ++ rev w).
  { rewrite <- (rev_involutive a), Hw, rev_app_distr. reflexivity. }
  assert (Fb : dropWhiteSpace b = b).
  { apply dropWhiteSpace_fixed. intros c r Hb.
    rewrite Hb in Ea. cbn in Ea. apply (dropWhiteSpace_head l c _ Ea). }
  rewrite Fb. unfold b at 1. rewrite rev_involutive, dropWhiteSpace_again.
  reflexivity.
Qed.

Lemma trim_trim (s : string) : trim (trim s) = trim s.
Proof.
  unfold trim at 1. rewrite trim_chars, trimmed_chars_fixed.
  rewrite <- trim_chars. apply string_of_list_ascii_of_string.
Qed.

Lemma trimmed_edges (s : string) :
  (forall c r, list_ascii_of_string (trim s) = c :: r -> isWhiteSpace c = false) /\
  (forall c r, rev (list_ascii_of_string (trim s)) = c :: r ->
               isWhiteSpace c = false).
Proof.
  rewrite trim_chars. set (a := dropWhiteSpace (list_ascii_of_string s)).
  split.
  - intros c r H.
    destruct (dropWhiteSpace_suffix (rev a)) as [w Hw].
    assert (Ea : a = rev (dropWhiteSpace (rev a)) ++ rev w).
    { rewrite <- (rev_involutive a) at 1. rewrite Hw at 1.
      rewrite rev_app_distr. reflexivity. }
    rewrite H in Ea. cbn in Ea.
    apply (dropWhiteSpace_head (list_ascii_of_string s) c _ Ea).
  - intros c r H. rewrite rev_involutive in H.
    apply (dropWhiteSpace_head _ c r H).
Qed.

(** ** The chat sheet *)



Lemma orElse_not_blank (value : option string) (fallback : string) :
  AskGrainSheet.blank fallback = false ->
  AskGrainSheet.blank (AskGrainSheet.orElse value fallback) = false.
Proof.
  intro H. unfold AskGrainSheet.orElse. destruct value as [t|]; [|exact H].
  destruct (AskGrainSheet.blank t) eqn:E; [exact H | exact E].
Qed.



(** X17.  Whatever comes back, settling a send ends the sending state,
    leaves the input as it is and appends exactly one message of the
    assistant, whose text is never empty: the reply of an ok response that
    has one, otherwise the error text of the response, the message of the
    error thrown, or one of the three fixed fallback texts. *)
Theorem settle_appends_one_answer (result : AskGrainSheet.fetched)
    (st : AskGrainSheet.Sheet) :
  let st' := AskGrainSheet.handleSend_settle result st in
  AskGrainSheet.isSending st' = false /\
  AskGrainSheet.chatInput st' = AskGrainSheet.chatInput st /\
  exists answer : string,
    AskGrainSheet.chatHistory st'
    = AskGrainSheet.chatHistory st ++ [mkClientMessage assistant answer] /\
    answer <> EmptyString /\
    match result with
    | AskGrainSheet.Responded ok data =>
        if ok && truthy (AskGrainSheet.dataReply data)
        then AskGrainSheet.dataReply data = Some answer
        else answer = AskGrainSheet.orElse (AskGrainSheet.dataError data)
                        "Unable to reach Grain right now."
    | AskGrainSheet.Rejected (ErrorObject m) =>
        answer = AskGrainSheet.orElse (Some m)
                   "Give it a few seconds and try again."
    | AskGrainSheet.Rejected _ =>
        answer = "I hit a snag reaching the AI right now."%string
    end.
Proof.
  cbv zeta. split; [reflexivity|]. split; [reflexivity|].
  assert (NB : forall t : string,
             AskGrainSheet.blank t = false -> t <> EmptyString).
  { intros t H E. rewrite E in H. discriminate H. }
  assert (Err : forall e : option string,
             AskGrainSheet.orElse
               (Some (AskGrainSheet.orElse e "Unable to reach Grain right now."))
               "Give it a few seconds and try again."
             = AskGrainSheet.orElse e "Unable to reach Grain right now.").
  { intro e. cbn [AskGrainSheet.orElse].
    rewrite (orElse_not_blank e "Unable to reach Grain right now." eq_refl).
    reflexivity. }
  unfold AskGrainSheet.handleSend_settle.
  destruct result as [ok [r e] | thrownValue];
    cbn [AskGrainSheet.dataReply AskGrainSheet.dataError
         AskGrainSheet.chatHistory].
  - destruct (ok && truthy r) eqn:G.
    + apply andb_true_iff in G. destruct G as [-> T]. rewrite T. cbn [negb orb].
      destruct r as [r|]; [|discriminate T].
      cbn in T. apply negb_true_iff in T.
      exists r. split; [|split; [apply NB, T | reflexivity]].
      cbn [AskGrainSheet.orElse]. unfold AskGrainSheet.blank. rewrite T.
      reflexivity.
    + assert (N : negb ok || negb (truthy r) = true).
      { destruct ok, (truthy r); try reflexivity. discriminate G. }
      rewrite N. rewrite Err.
      eexists. split; [reflexivity|]. split; [|reflexivity].
      apply NB, orElse_not_blank. reflexivity.
  - destruct thrownValue as [m | t |].
    + eexists. split; [reflexivity|]. split; [|reflexivity].
      apply NB, orElse_not_blank. reflexivity.
    + eexists. split; [reflexivity|]. split; [discriminate | reflexivity].
    + eexists. split; [reflexivity|]. split; [discriminate | reflexivity].
Qed.

Lemma POST_state (env : option string) (upstream : Upstream) (req : Request)
    (p : Process) :
  snd (POST env upstream req p) = snd (getOpenAIClient env p).
Proof.
  unfold POST.
  destruct (getOpenAIClient env p) as [[client|] p1]; cbn [snd]; [|reflexivity].
  destruct (json req) as [body|e]; [|reflexivity].
  destruct (upstream client _) as [completion|e]; [|reflexivity].
  destruct (truthy (replyOf completion)); reflexivity.
Qed.








(** ** The chat proxy: what is sent on and what comes back *)



(** X21.  Every response of the proxy is coherent: either its status is 200
    and it carries a reply, which is not empty and has no white space at
    either end, or its status is 500 or 503 and it carries an error text.
    So on the client's side a response is ok exactly when it has a reply. *)
Theorem POST_response_coherent (env : option string) (upstream : Upstream)
    (req : Request) (p : Process) :
  let r := fst (POST env upstream req p) in
  (status r = 200%Z /\
   exists t : string,
     payload r = reply t /\ t <> EmptyString /\ trim t = t /\
     (forall c rest, list_ascii_of_string t = c :: rest ->
                     isWhiteSpace c = false) /\
     (forall c rest, rev (list_ascii_of_string t) = c :: rest ->
                     isWhiteSpace c = false) /\
     AskGrainSheet.fetchResult r
     = AskGrainSheet.Responded true (AskGrainSheet.mkData (Some t) None)) \/
  ((status r = 500%Z \/ status r = 503%Z) /\
   exists e : string,
     payload r = error e /\
     AskGrainSheet.fetchResult r
     = AskGrainSheet.Responded false (AskGrainSheet.mkData None (Some e))).
Proof.
  cbv zeta. rewrite POST_cases.
  assert (Caught : forall e : thrown,
             (status (caught e) = 500%Z \/ status (caught e) = 503%Z) /\
             exists t : string,
               payload (caught e) = error t /\
               AskGrainSheet.fetchResult (caught e)
               = AskGrainSheet.Responded false
                   (AskGrainSheet.mkData None (Some t))).
  { intro e. split; [left; reflexivity|]. eexists. split; reflexivity. }
  destruct (fst (getOpenAIClient env p)) as [client|].
  - destruct (json req) as [body|e]; [|right; apply Caught].
    destruct (upstream client (createParams body)) as [completion|e];
      [|right; apply Caught].
    destruct (truthy (replyOf completion)) eqn:T.
    + left. split; [reflexivity|].
      destruct (replyOf completion) as [t|] eqn:R; [|discriminate T].
      exists t. cbn [keyText payload]. split; [reflexivity|].
      assert (Tr : exists c0 : string, t = trim c0).
      { unfold replyOf in R.
        destruct (choices completion) as [|c l]; [discriminate R|].
        destruct (message c) as [m|]; [|discriminate R].
        destruct (messageContent m) as [c0|]; [|discriminate R].
        injection R as <-. exists c0. reflexivity. }
      destruct Tr as [c0 ->].
      split.
      { intro E. cbn in T. rewrite E in T. discriminate T. }
      split; [apply trim_trim|].
      destruct (trimmed_edges c0) as [Hd Tl].
      split; [exact Hd|]. split; [exact Tl | reflexivity].
    + right. split; [left; reflexivity|]. eexists. split; reflexivity.
  - right. split; [right; reflexivity|]. eexists. split; reflexivity.
Qed.

Lemma serve_settled (reqs : list (option string * Upstream * Request))
    (p : Process) :
  cachedClient p <> Undefined -> snd (serve reqs p) = p.
Proof.
  intro H. induction reqs as [|[[env up] req] rest IH]; [reflexivity|].
  cbn [serve].
  pose proof (POST_state env up req p) as S.
  rewrite (getOpenAIClient_stable env p H) in S. cbn [snd] in S.
  destruct (POST env up req p) as [r p1]. cbn [snd] in S. subst p1.
  destruct (serve rest p) as [rs p2]. cbn [snd] in *. exact IH.
Qed.

(** X22.  Whatever requests are served, the proxy builds at most one
    client: once the accessor's cell is settled no request changes the
    state again, so after any requests the state is the one the very first
    request left, and from a fresh process at most one client has been
    constructed. *)
Theorem client_built_at_most_once :
  (forall (reqs : list (option string * Upstream * Request)) (p : Process),
      cachedClient p <> Undefined -> snd (serve reqs p) = p) /\
  (forall (env : option string) (up : Upstream) (req : Request)
          (later : list (option string * Upstream * Request)) (p : Process),
      snd (serve ((env, up, req) :: later) p) = snd (getOpenAIClient env p) /\
      cachedClient (snd (serve ((env, up, req) :: later) p)) <> Undefined) /\
  (forall reqs : list (option string * Upstream * Request),
      (constructed (snd (serve reqs start)) <= 1)%nat).
Proof.
  assert (First : forall env up req later p,
             snd (serve ((env, up, req) :: later) p)
             = snd (getOpenAIClient env p)).
  { intros env up req later p. cbn [serve].
    pose proof (POST_state env up req p) as S.
    destruct (POST env up req p) as [r p1]. cbn [snd] in S.
    pose proof (serve_settled later p1) as L.
    destruct (serve later p1) as [rs p2]. cbn [snd] in *.
    rewrite L; [exact S|]. rewrite S. apply getOpenAIClient_settles. }
  split; [exact serve_settled|].
  split.
  { intros env up req later p. split; [apply First|].
    rewrite First. apply getOpenAIClient_settles. }
  intros [|[[env up] req] later]; [cbn; lia|].
  rewrite First. unfold getOpenAIClient, start. cbn [cachedClient constructed].
  destruct (missing env); cbn; lia.
Qed.

Lemma client_built_at_most_once_witness :
  snd (serve [ (Some "sk-live"%string, answering, emptyRequest);
               (Some "sk-other"%string, rateLimited, emptyRequest) ]
         (snd (getOpenAIClient (Some "sk-live"%string) start)))
  = snd (getOpenAIClient (Some "sk-live"%string) start).
Proof.
  apply (proj1 client_built_at_most_once). discriminate.
Defined.

(** ** Percentages of the dashboard *)

Lemma round_percent (x : Q) :
  0 <= x -> x <= 1 -> 0 <= Math_round (x * 100) /\ Math_round (x * 100) <= 100.
Proof.
  intros L U. split; [apply Math_round_nonneg; lra|].
  pose proof (Math_round_mono (x * 100) 100) as R.
  change (Math_round 100) with 100 in R. apply R. lra.
Qed.

(** X23.  In every state of the dashboard the invest share shown is a
    whole percentage between 0 and 100, the share of the emergency target
    built in six months is between 0 and 100, and the savings rate and the
    monthly interest estimate are not negative.  When no expense is
    negative, the income is at least 1 and the leftover is whole or at
    least 2.5, the savings rate is at most 100. *)
Theorem dashboard_percentages (s : Inputs) :
  (whole (investSharePct s) /\ 0 <= investSharePct s /\ investSharePct s <= 100) /\
  (0 <= emergencyBuildPct s /\ emergencyBuildPct s <= 100) /\
  0 <= savingsRate s /\
  0 <= debtInterestEstimate s /\
  (Forall (Qle 0)
     [ rent s; utilities s; insurance s; transport s; groceries s; dining s;
       subscriptions s; other s ] ->
   1 <= income s ->
   whole (leftover s) \/ 2.5 <= leftover s ->
   savingsRate s <= 100).
Proof.
  pose proof (leftover_nonneg s) as Hl.
  assert (G : monthlyToGoals s
              == Math_max (leftover s) (recInvest (allocation s))).
  { unfold monthlyToGoals, allocation. rewrite recSaveCash_eq.
    apply save_plus_invest. }
  assert (G0 : 0 <= monthlyToGoals s).
  { rewrite G. unfold Math_max. pose proof (Q.le_max_l (leftover s)
      (recInvest (allocation s))). lra. }
  pose proof (Math_max_1_pos (income s)) as I1.
  split.
  { unfold investSharePct.
    split; [apply Math_round_whole|].
    apply round_percent; unfold Math_min, Math_max.
    - apply Q.min_glb; [lra | apply Q.le_max_l].
    - apply Q.le_min_l. }
  split.
  { unfold emergencyBuildPct, Math_min, Math_max.
    split; [apply Q.min_glb; [lra | apply Q.le_max_l] | apply Q.le_min_l]. }
  split.
  { unfold savingsRate. apply Math_round_nonneg.
    assert (D : 0 <= monthlyToGoals s / Math_max 1 (income s))
      by (apply Qle_shift_div_l; lra).
    lra. }
  split; [unfold debtInterestEstimate, Math_max; apply Q.le_max_l|].
  intros H Inc W.
  repeat match goal with
         | H : Forall _ (_ :: _) |- _ => inversion_clear H
         end.
  assert (M : monthlyToGoals s == leftover s).
  { rewrite G. unfold Math_max. apply Q.max_l. unfold allocation.
    apply recInvest_le_leftover; assumption. }
  assert (L : leftover s <= income s).
  { unfold leftover, Math_max. apply Q.max_lub; [lra|].
    unfold spendTotal, fixedTotal, variableTotal. lra. }
  assert (E : Math_max 1 (income s) == income s)
    by (unfold Math_max; apply Q.max_r; exact Inc).
  unfold savingsRate. apply round_percent.
  - apply Qle_shift_div_l; lra.
  - apply Qle_shift_div_r; lra.
Qed.

Lemma dashboard_percentages_witness : savingsRate initial <= 100.
Proof.
  destruct (dashboard_percentages initial) as (_ & _ & _ & _ & W).
  apply W; [repeat constructor; qeval | qeval | left; exists 735%Z; qeval].
Defined.

(** ** The housing insight *)



(** ** The preset of the chat sheet *)


